(** * Clip2AI: the clipboard dispatch pipeline of [clip2ai.py]

    A shallow embedding of [extract_text_from_response],
    [send_prompt_to_gemini] and [process_clipboard], together with an
    interleaving semantics of the worker threads started by
    [hotkey_callback], and the properties of the pipeline proved on it. *)

From Stdlib Require Import String Ascii List Bool Arith ZArith QArith Lia.
From Stdlib Require Import DecimalString.
Import ListNotations.
Local Close Scope Q_scope.
Local Open Scope nat_scope.
Local Open Scope string_scope.
Local Open Scope list_scope.
Set Warnings "-register-all".

(** ** Python values and exceptions *)

(** The exception classes that can occur in the pipeline.  The last three
    derive from [BaseException] only; every other one derives from
    [Exception]. *)
Inductive exc_class : Type :=
| ConnectionError        (* network error *)
| TimeoutError           (* deadline exceeded *)
| PermissionDenied       (* authentication error *)
| ResourceExhausted      (* rate limit *)
| ValueError             (* malformed payload *)
| AttributeError
| IndexError
| TypeError
| PyperclipException
| OtherException (name : string)
| KeyboardInterrupt
| SystemExit
| GeneratorExit.

(** [isinstance(e, Exception)]: what an [except Exception] clause catches. *)
Definition is_Exception (e : exc_class) : bool :=
  match e with
  | KeyboardInterrupt | SystemExit | GeneratorExit => false
  | _ => true
  end.

(** The outcome of evaluating a Python expression: a value, or a raised
    exception. *)
Inductive result (A : Type) : Type :=
| Ret (a : A)
| Raise (e : exc_class).
Arguments Ret {A} a.
Arguments Raise {A} e.

(** The values the pipeline handles: [None], a [str], a [list], an object
    with named attributes, an [int], a (finite) [float] by the rational it
    denotes, or a [bool].  An attribute is a stored value or a property
    whose getter raises (as [GenerateContentResponse.text] does when the
    reply holds no text part). *)
Inductive pyval : Type :=
| VNone
| VStr (s : string)
| VList (items : list pyval)
| VObj (attrs : list (string * result pyval))
| VInt (n : Z)
| VFloat (q : Q)
| VBool (b : bool).

(** [isinstance(v, str)] *)
Definition is_str (v : pyval) : bool :=
  match v with VStr _ => true | _ => false end.

(** Truth value of [v] in an [if v:] test. *)
Definition truthy (v : pyval) : bool :=
  match v with
  | VNone => false
  | VStr s => negb (String.eqb s "")
  | VList l => match l with [] => false | _ :: _ => true end
  | VObj _ => true
  | VInt n => negb (Z.eqb n 0)
  | VFloat q => negb (Qeq_bool q 0)
  | VBool b => b
  end.

Fixpoint lookup_attr (name : string) (attrs : list (string * result pyval))
  : option (result pyval) :=
  match attrs with
  | [] => None
  | (k, r) :: rest => if String.eqb k name then Some r else lookup_attr name rest
  end.

(** [v.name], for the attribute names the program reads ([text],
    [candidates], [content], [parts]): none of them exists on [None], on a
    [str] or on a [list]. *)
Definition getattr (v : pyval) (name : string) : result pyval :=
  match v with
  | VObj attrs =>
      match lookup_attr name attrs with
      | Some r => r
      | None => Raise AttributeError
      end
  | _ => Raise AttributeError
  end.

(** [v[0]] *)
Definition getitem0 (v : pyval) : result pyval :=
  match v with
  | VList (x :: _) => Ret x
  | VList [] => Raise IndexError
  | VStr (String c _) => Ret (VStr (String c EmptyString))
  | VStr EmptyString => Raise IndexError
  | VNone => Raise TypeError
  | VObj _ => Raise TypeError
  | VInt _ => Raise TypeError
  | VFloat _ => Raise TypeError
  | VBool _ => Raise TypeError
  end.

(** ** Sequencing and [try]/[except Exception] on results *)

Definition rbind {A B} (r : result A) (k : A -> result B) : result B :=
  match r with
  | Ret a => k a
  | Raise e => Raise e
  end.

(** [try: body  except Exception: handler]; an exception outside the
    [Exception] hierarchy passes through. *)
Definition try_except {A} (body : result A) (handler : exc_class -> result A)
  : result A :=
  match body with
  | Ret a => Ret a
  | Raise e => if is_Exception e then handler e else Raise e
  end.

Declare Scope py_scope.
Delimit Scope py_scope with py.
Notation "x <- c ;; k" := (rbind c (fun x => k))
  (at level 61, c at next level, right associativity) : py_scope.

(** ** [extract_text_from_response] *)

(** [resp.text] *)
Definition direct_field (resp : pyval) : result pyval :=
  getattr resp "text".

(** [resp.candidates[0].content.parts[0].text] *)
Definition nested_candidate (resp : pyval) : result pyval :=
  (cands <- getattr resp "candidates" ;;
   cand  <- getitem0 cands ;;
   cont  <- getattr cand "content" ;;
   parts <- getattr cont "parts" ;;
   part  <- getitem0 parts ;;
   getattr part "text")%py.

(** [resp.parts[0].text] *)
Definition alternate_nested (resp : pyval) : result pyval :=
  (parts <- getattr resp "parts" ;;
   part  <- getitem0 parts ;;
   getattr part "text")%py.

Definition extract_text_from_response (resp : pyval) : result pyval :=
  try_except (direct_field resp) (fun _ =>
    try_except (nested_candidate resp) (fun _ =>
      try_except (alternate_nested resp) (fun _ =>
        Ret VNone))).

(** ** Strings: [str.strip] and [len] *)

(** [c.isspace()] for a code point below 256: TAB, LF, VT, FF, CR, the
    separators FS, GS, RS, US, the space, NEL and the no-break space. *)
Definition isspace (c : ascii) : bool :=
  let n := nat_of_ascii c in
  (((9 <=? n) && (n <=? 13)) || ((28 <=? n) && (n <=? 32))
   || (n =? 133) || (n =? 160))%nat.

Fixpoint lstrip (s : string) : string :=
  match s with
  | EmptyString => EmptyString
  | String c rest => if isspace c then lstrip rest else s
  end.

Fixpoint rstrip (s : string) : string :=
  match s with
  | EmptyString => EmptyString
  | String c rest =>
      match rstrip rest with
      | EmptyString => if isspace c then EmptyString else String c EmptyString
      | r => String c r
      end
  end.

(** [s.strip()] *)
Definition strip (s : string) : string := rstrip (lstrip s).

(** Every character of [s] is white space (true of the empty string). *)
Fixpoint all_space (s : string) : bool :=
  match s with
  | EmptyString => true
  | String c rest => isspace c && all_space rest
  end.

(** [str(n)] for a length, as the [%d] of a log line prints it. *)
Definition decimal (n : nat) : string :=
  NilZero.string_of_uint (Nat.to_uint n).

(** [len(v)]: defined on a [str] and on a [list]. *)
Definition len (v : pyval) : result nat :=
  match v with
  | VStr s => Ret (String.length s)
  | VList l => Ret (List.length l)
  | _ => Raise TypeError
  end.

(** ** The process state and the remote service *)

Inductive log_level : Type := INFO | ERROR.

(** One line of [clipboard_ai.log]; [exc_info] is the exception whose
    traceback [logging.exception] appends. *)
Record log_record : Type := {
  level : log_level;
  message : string;
  exc_info : option exc_class
}.

(** What one call of [generate_content] hands to the service: the model
    the instance was created for, the generation configuration and the
    prompt. *)
Record request : Type := {
  req_model : string;
  req_max_output_tokens : Z;
  req_temperature : Q;
  req_prompt : string
}.

(** The module's globals and the ambient resources it acts on.  [log] and
    [requests] hold the newest entry first. *)
Record world : Type := {
  clipboard : pyval;
  _last_processed : pyval;
  log : list log_record;
  requests : list request
}.

(** [_last_processed = None], nothing logged, nothing sent. *)
Definition initial_world (clip : pyval) : world :=
  {| clipboard := clip; _last_processed := VNone; log := []; requests := [] |}.

(** A computation on the process state that returns or raises. *)
Definition M (A : Type) : Type := world -> result A * world.

Definition ret {A} (a : A) : M A := fun w => (Ret a, w).

Definition bind {A B} (m : M A) (k : A -> M B) : M B :=
  fun w =>
    match m w with
    | (Ret a, w') => k a w'
    | (Raise e, w') => (Raise e, w')
    end.

(** A pure evaluation inside a stateful computation. *)
Definition lift {A} (r : result A) : M A := fun w => (r, w).

(** [try: body  except Exception as e: handler]: the effects of [body] up
    to the raise stay. *)
Definition try_exceptM {A} (body : M A) (handler : exc_class -> M A) : M A :=
  fun w =>
    match body w with
    | (Ret a, w') => (Ret a, w')
    | (Raise e, w') => if is_Exception e then handler e w' else (Raise e, w')
    end.

Declare Scope pym_scope.
Delimit Scope pym_scope with pym.
Notation "x <- c ;; k" := (bind c (fun x => k))
  (at level 61, c at next level, right associativity) : pym_scope.
Notation "c ;; k" := (bind c (fun _ => k))
  (at level 61, right associativity) : pym_scope.

Definition emit (r : log_record) : M unit :=
  fun w => (Ret tt,
            {| clipboard := clipboard w; _last_processed := _last_processed w;
               log := r :: log w; requests := requests w |}).

(** [logging.info(msg)] *)
Definition logging_info (msg : string) : M unit :=
  emit {| level := INFO; message := msg; exc_info := None |}.

(** [logging.error(msg)] *)
Definition logging_error (msg : string) : M unit :=
  emit {| level := ERROR; message := msg; exc_info := None |}.

(** [logging.exception(msg)] inside the handler of [e] *)
Definition logging_exception (msg : string) (e : exc_class) : M unit :=
  emit {| level := ERROR; message := msg; exc_info := Some e |}.

(** [pyperclip.paste()] *)
Definition paste : M pyval := fun w => (Ret (clipboard w), w).

(** What [pyperclip] does with a value that is no [str], which the script
    leaves to the installed version: [copies] tells whether [copy] takes a
    value that is not a [str], an [int], a [float] or a [bool] (older
    versions refuse it, newer ones write its text), and [text_of] is the
    text, [str(v)], written for a value whose text is not fixed below. *)
Record clipboard_lib : Type := {
  copies : pyval -> bool;
  text_of : pyval -> string
}.

(** [str(n)] for an [int]. *)
Definition decimal_Z (n : Z) : string :=
  NilZero.string_of_int (Z.to_int n).

(** [pyperclip.copy] accepts the value: a [str], an [int], a [float] and a
    [bool] in every version. *)
Definition copy_ok (lib : clipboard_lib) (v : pyval) : bool :=
  match v with
  | VStr _ | VInt _ | VFloat _ | VBool _ => true
  | _ => copies lib v
  end.

(** The text [pyperclip.copy] writes for a value it accepts: the [str]
    itself, and [str(v)] otherwise. *)
Definition clip_text (lib : clipboard_lib) (v : pyval) : string :=
  match v with
  | VStr s => s
  | VInt n => decimal_Z n
  | VBool b => if b then "True" else "False"
  | _ => text_of lib v
  end.

(** [pyperclip.copy(v)]: the text of an accepted value replaces the
    clipboard content; a refused value raises [PyperclipException]. *)
Definition copy (lib : clipboard_lib) (v : pyval) : M unit :=
  fun w =>
    if copy_ok lib v then
      (Ret tt,
       {| clipboard := VStr (clip_text lib v);
          _last_processed := _last_processed w;
          log := log w; requests := requests w |})
    else (Raise PyperclipException, w).

(** Reading the global [_last_processed]. *)
Definition get_last_processed : M pyval :=
  fun w => (Ret (_last_processed w), w).

(** [_last_processed = v] *)
Definition set_last_processed (v : pyval) : M unit :=
  fun w => (Ret tt,
            {| clipboard := clipboard w; _last_processed := v;
               log := log w; requests := requests w |}).

(** [text == v] for a [str] on the left: equal only to the same [str]. *)
Definition str_eq (text : string) (v : pyval) : bool :=
  match v with
  | VStr s => String.eqb text s
  | _ => false
  end.

(** An argument with a default: [None] when the caller omits it. *)
Definition default_arg {A} (dflt : A) (arg : option A) : A :=
  match arg with Some a => a | None => dflt end.

Section Pipeline.

(** The installed [pyperclip]. *)
Variable pyperclip : clipboard_lib.

(** The hosted service behind [genai]: the outcome of the [n]-th request
    (counted from 0), a response object or a raised exception.  Creating
    the model instance and the generation configuration happens in the same
    [try] block and carries the data of the request, so a failure there is
    an outcome of this function as well. *)
Variable gemini : nat -> request -> result pyval.

(** [genai.GenerativeModel(model).generate_content(prompt_text,
    generation_config=genai.types.GenerationConfig(...))] *)
Definition generate_content (model : string) (prompt_text : string)
    (max_output_tokens : Z) (temperature : Q) : M pyval :=
  fun w =>
    let req := {| req_model := model;
                  req_max_output_tokens := max_output_tokens;
                  req_temperature := temperature;
                  req_prompt := prompt_text |} in
    (gemini (List.length (requests w)) req,
     {| clipboard := clipboard w; _last_processed := _last_processed w;
        log := log w; requests := req :: requests w |}).

Definition send_prompt_to_gemini (prompt_text : string)
    (model : option string) (max_tokens : option Z) (temperature : option Q)
  : M pyval :=
  let model := default_arg "gemini-2.0-flash-lite" model in
  let max_tokens := default_arg 800%Z max_tokens in
  let temperature := default_arg 0.2%Q temperature in
  try_exceptM
    (logging_info "Calling Google Gemini API..." ;;
     response <- generate_content model prompt_text max_tokens temperature ;;
     out <- lift (extract_text_from_response response) ;;
     ret out)%pym
    (fun e =>
       (logging_exception "Google Gemini request failed" e ;;
        ret VNone)%pym).

(** What [process_clipboard] does with the reply of the client. *)
Definition handle_response (model_response : pyval) : M unit :=
  if truthy model_response then
    (copy pyperclip model_response ;;
     set_last_processed model_response ;;
     n <- lift (len model_response) ;;
     logging_info ("Clipboard updated with Gemini response. Length: "
                   ++ decimal n ++ " chars"))%pym
  else
    logging_error "No response from Google Gemini. Clipboard not changed.".

(** What [process_clipboard] does with a clipboard text that is not
    blank. *)
Definition dispatch (text : string) : M unit :=
  (last <- get_last_processed ;;
   if str_eq text last then
     logging_info "Clipboard text equals last processed text. Skipping."
   else
     (logging_info ("Sending clipboard to Google Gemini. Length: "
                    ++ decimal (String.length text) ++ " chars") ;;
      model_response <- send_prompt_to_gemini text None None None ;;
      handle_response model_response))%pym.

(** The body of [with _lock:] in [process_clipboard]: for one thread
    alone, taking and releasing the lock around it changes nothing. *)
Definition process_clipboard : M unit :=
  (text <- paste ;;
   match text with
   | VStr s =>
       if String.eqb (strip s) "" then
         logging_info "Clipboard is empty or not text. Nothing to do."
       else
         dispatch s
   | _ => logging_info "Clipboard is empty or not text. Nothing to do."
   end)%pym.

(** ** The worker threads

    [hotkey_callback] starts one thread per trigger; each runs
    [process_clipboard] once.  A thread is followed through the points
    between its actions on the shared state. *)

Inductive pc : Type :=
| PStart                        (* started, before [with _lock:] *)
| PLocked                       (* holds the lock, before [pyperclip.paste()] *)
| PText (text : pyval)          (* clipboard read, before the two checks *)
| PCall (text : string)         (* checks passed, before the client call *)
| PReply (model_response : pyval) (* client returned, before [if model_response:] *)
| PCopied (model_response : pyval) (* clipboard written, before the assignment *)
| PExit (r : result unit)       (* leaving the [with] block, lock still held *)
| PDone (r : result unit).      (* lock released, thread finished *)

(** One action of a thread that holds the lock, from the statements of
    [process_clipboard] in their order. *)
Definition thread_step (p : pc) : M pc :=
  match p with
  | PLocked => (text <- paste ;; ret (PText text))%pym
  | PText text =>
      match text with
      | VStr s =>
          if String.eqb (strip s) "" then
            (logging_info "Clipboard is empty or not text. Nothing to do." ;;
             ret (PExit (Ret tt)))%pym
          else
            (last <- get_last_processed ;;
             if str_eq s last then
               (logging_info
                  "Clipboard text equals last processed text. Skipping." ;;
                ret (PExit (Ret tt)))
             else
               (logging_info ("Sending clipboard to Google Gemini. Length: "
                              ++ decimal (String.length s) ++ " chars") ;;
                ret (PCall s)))%pym
      | _ =>
          (logging_info "Clipboard is empty or not text. Nothing to do." ;;
           ret (PExit (Ret tt)))%pym
      end
  | PCall s =>
      (model_response <- send_prompt_to_gemini s None None None ;;
       ret (PReply model_response))%pym
  | PReply model_response =>
      if truthy model_response then
        (copy pyperclip model_response ;;
         ret (PCopied model_response))%pym
      else
        (logging_error
           "No response from Google Gemini. Clipboard not changed." ;;
         ret (PExit (Ret tt)))%pym
  | PCopied model_response =>
      (set_last_processed model_response ;;
       n <- lift (len model_response) ;;
       logging_info ("Clipboard updated with Gemini response. Length: "
                     ++ decimal n ++ " chars") ;;
       ret (PExit (Ret tt)))%pym
  | other => ret other
  end.

(** The point a thread reaches by an action: an exception that the action
    raises leaves the [with] block. *)
Definition next_pc (r : result pc) : pc :=
  match r with
  | Ret p => p
  | Raise e => PExit (Raise e)
  end.

(** The actions of a thread from [p] to the end of the [with] block, at
    most [fuel] of them. *)
Fixpoint run_to_exit (fuel : nat) (p : pc) (w : world) : result unit * world :=
  match p with
  | PExit r => (r, w)
  | PDone r => (r, w)
  | _ =>
      match fuel with
      | O => (Ret tt, w)
      | S fuel' =>
          let (r, w') := thread_step p w in
          run_to_exit fuel' (next_pc r) w'
      end
  end.

(** What a thread does to the shared state, as an event of the
    execution. *)
Inductive op : Type :=
| Acquire | ClipRead | CheckLast | RemoteCall | ClipWrite | Report
| SetLast | Release.

(** The event of the action taken at [p]. *)
Definition op_of (p : pc) : op :=
  match p with
  | PStart => Acquire
  | PLocked => ClipRead
  | PText _ => CheckLast
  | PCall _ => RemoteCall
  | PReply v => if truthy v then ClipWrite else Report
  | PCopied _ => SetLast
  | PExit _ => Release
  | PDone _ => Release
  end.

(** The process with its threads: the shared state, [_lock] (free, or held
    by a thread), the threads started so far and the point each one is at,
    and the events so far, newest first. *)
Record cstate : Type := {
  shared : world;
  lock : option nat;
  nthreads : nat;
  pcs : nat -> pc;
  trace : list (nat * op)
}.

Definition initial_cstate (clip : pyval) : cstate :=
  {| shared := initial_world clip; lock := None; nthreads := 0;
     pcs := fun _ => PStart; trace := [] |}.

Definition upd (f : nat -> pc) (i : nat) (p : pc) : nat -> pc :=
  fun k => if Nat.eqb k i then p else f k.

(** [hotkey_callback]: [threading.Thread(target=process_clipboard).start()] *)
Definition hotkey_callback (c : cstate) : cstate :=
  {| shared := shared c; lock := lock c; nthreads := S (nthreads c);
     pcs := pcs c; trace := trace c |}.

(** The user, or another application, puts [v] on the clipboard. *)
Definition user_copy (v : pyval) (c : cstate) : cstate :=
  {| shared := {| clipboard := v;
                  _last_processed := _last_processed (shared c);
                  log := log (shared c); requests := requests (shared c) |};
     lock := lock c; nthreads := nthreads c; pcs := pcs c; trace := trace c |}.

(** Thread [i] is scheduled.  At [PStart] it takes the lock when the lock
    is free and waits otherwise; inside the block it takes its next
    action; at [PExit] it releases the lock. *)
Definition step (i : nat) (c : cstate) : cstate :=
  if negb (Nat.ltb i (nthreads c)) then c
  else
    match pcs c i with
    | PStart =>
        match lock c with
        | None =>
            {| shared := shared c; lock := Some i; nthreads := nthreads c;
               pcs := upd (pcs c) i PLocked; trace := (i, Acquire) :: trace c |}
        | Some _ => c
        end
    | PExit r =>
        {| shared := shared c; lock := None; nthreads := nthreads c;
           pcs := upd (pcs c) i (PDone r); trace := (i, Release) :: trace c |}
    | PDone _ => c
    | p =>
        let (r, w') := thread_step p (shared c) in
        {| shared := w'; lock := lock c; nthreads := nthreads c;
           pcs := upd (pcs c) i (next_pc r); trace := (i, op_of p) :: trace c |}
    end.

Inductive action : Type :=
| Hotkey
| UserCopy (v : pyval)
| Run (i : nat).

Definition act (a : action) (c : cstate) : cstate :=
  match a with
  | Hotkey => hotkey_callback c
  | UserCopy v => user_copy v c
  | Run i => step i c
  end.

(** An execution: the actions of a schedule, in order. *)
Definition exec (sched : list action) (c : cstate) : cstate :=
  fold_left (fun c a => act a c) sched c.

(** [n] pipeline runs one after the other. *)
Fixpoint runs (n : nat) (w : world) : world :=
  match n with
  | O => w
  | S n' => snd (process_clipboard (runs n' w))
  end.

End Pipeline.

(** The events in the order they happened. *)
Definition history (c : cstate) : list (nat * op) := rev (trace c).

(** Thread [i] is inside the [with _lock:] block. *)
Definition in_block (p : pc) : bool :=
  match p with
  | PStart | PDone _ => false
  | _ => true
  end.

(** What holds of the lock, the threads and the events in every state
    of an execution.  The lock is held exactly while one thread is inside
    the block; a thread with an event has started; a thread has released
    exactly when it is done; nothing of a thread follows its release; and
    between two events of different threads the earlier thread
    releases, and does nothing after the later event. *)
Record Inv (c : cstate) : Prop := {
  inv_free : lock c = None -> forall i, in_block (pcs c i) = false;
  inv_held : forall h, lock c = Some h ->
             in_block (pcs c h) = true
             /\ forall i, i <> h -> in_block (pcs c i) = false;
  inv_started : forall i o, In (i, o) (trace c) -> pcs c i <> PStart;
  inv_done : forall i, In (i, Release) (trace c)
                       <-> exists r, pcs c i = PDone r;
  inv_last : forall a b i o, trace c = a ++ (i, Release) :: b ->
                             ~ In (i, o) a;
  inv_order : forall post mid pre i j oi oj,
      i <> j ->
      trace c = post ++ (j, oj) :: mid ++ (i, oi) :: pre ->
      In (i, Release) (mid ++ [(i, oi)]) /\ forall o, ~ In (i, o) post
}.

(** ** The vocabulary of the specification *)

(** The three response shapes, in their priority order. *)
Inductive shape : Type := DirectField | NestedCandidate | AlternateNested.

Definition priority : list shape :=
  [DirectField; NestedCandidate; AlternateNested].

(** Reading the reply of [resp] under a shape. *)
Definition access (sh : shape) (resp : pyval) : result pyval :=
  match sh with
  | DirectField => direct_field resp
  | NestedCandidate => nested_candidate resp
  | AlternateNested => alternate_nested resp
  end.

(** The non-absent value a shape yields, if any: reading it returns, and
    what it returns is not [None]. *)
Definition yields (sh : shape) (resp : pyval) : option pyval :=
  match access sh resp with
  | Ret VNone => None
  | Ret v => Some v
  | Raise _ => None
  end.

Fixpoint first_some {A B} (f : A -> option B) (l : list A) : option B :=
  match l with
  | [] => None
  | a :: rest =>
      match f a with
      | Some b => Some b
      | None => first_some f rest
      end
  end.

(** Extraction as the specification words it: the value of the first
    shape, in priority order, that yields a non-absent value; [None] when
    no shape does. *)
Definition spec_extract_text (resp : pyval) : pyval :=
  match first_some (fun sh => yields sh resp) priority with
  | Some v => v
  | None => VNone
  end.

(** Reading [resp] under [sh] settles the extraction: it returns, or it
    raises outside the [Exception] hierarchy. *)
Definition settles (resp : pyval) (sh : shape) : bool :=
  match access sh resp with
  | Ret _ => true
  | Raise e => negb (is_Exception e)
  end.

(** The request the pipeline sends for a clipboard text: no option is
    passed, so the defaults of [send_prompt_to_gemini] apply. *)
Definition default_request (text : string) : request :=
  {| req_model := "gemini-2.0-flash-lite";
     req_max_output_tokens := 800;
     req_temperature := 0.2;
     req_prompt := text |}.

(** The answer of the service to the request a run in [w] sends for
    [text]. *)
Definition service_outcome (gemini : nat -> request -> result pyval)
    (w : world) (text : string) : result pyval :=
  gemini (List.length (requests w)) (default_request text).

(** The run in [w] reaches the client call: the clipboard holds the
    non-blank [text], different from the last processed text. *)
Definition reaches_call (w : world) (text : string) : Prop :=
  clipboard w = VStr text /\ all_space text = false
  /\ str_eq text (_last_processed w) = false.

(** No text can be had from [resp] under [sh]: the read raises an
    [Exception], or returns [None]. *)
Definition no_text_under (resp : pyval) (sh : shape) : bool :=
  match access sh resp with
  | Ret VNone => true
  | Ret _ => false
  | Raise e => is_Exception e
  end.

(** The failures of a remote call that the specification lists: a network
    error, a timeout, an authentication error, a rate limit, a malformed
    payload, or a response from which no shape yields a text. *)
Definition remote_failure (o : result pyval) : bool :=
  match o with
  | Raise ConnectionError => true
  | Raise TimeoutError => true
  | Raise PermissionDenied => true
  | Raise ResourceExhausted => true
  | Raise ValueError => true
  | Raise _ => false
  | Ret resp => forallb (no_text_under resp) priority
  end.

(** No usable reply comes out of a service outcome: the call raises, or
    the extraction does not produce a true value. *)
Definition no_usable_reply (o : result pyval) : bool :=
  match o with
  | Raise _ => true
  | Ret resp =>
      match extract_text_from_response resp with
      | Ret v => negb (truthy v)
      | Raise _ => true
      end
  end.

(** A clipboard content that is absent, not a text, empty or made of
    white space only. *)
Definition nothing_to_do (c : pyval) : bool :=
  match c with
  | VStr s => all_space s
  | _ => true
  end.

(** The reply of a remote call that succeeds: the service answers and the
    extraction returns. *)
Definition reply_of (o : result pyval) : option pyval :=
  match o with
  | Ret resp =>
      match extract_text_from_response resp with
      | Ret v => Some v
      | Raise _ => None
      end
  | Raise _ => None
  end.


(** ** Definitions used by the proofs, and sample data *)

(** A response whose direct field holds [None] while the alternate shape
    holds a text. *)
Definition resp_absent_direct : pyval :=
  VObj [("text", Ret VNone);
        ("parts", Ret (VList [VObj [("text", Ret (VStr "hi"))]]))].

(** A response with a text under each of the three shapes, all
    different. *)
Definition resp_all_shapes : pyval :=
  VObj [("text", Ret (VStr "direct"));
        ("candidates",
         Ret (VList [VObj [("content",
                Ret (VObj [("parts",
                  Ret (VList [VObj [("text", Ret (VStr "nested"))]]))]))]]));
        ("parts", Ret (VList [VObj [("text", Ret (VStr "alternate"))]]))].

(** What the client turns an outcome of the service into. *)
Definition client_result (o : result pyval) : result pyval :=
  match o with
  | Ret resp =>
      match extract_text_from_response resp with
      | Ret v => Ret v
      | Raise e => if is_Exception e then Ret VNone else Raise e
      end
  | Raise e => if is_Exception e then Ret VNone else Raise e
  end.

(** [w] with one more log record. *)
Definition logged (r : log_record) (w : world) : world :=
  {| clipboard := clipboard w; _last_processed := _last_processed w;
     log := r :: log w; requests := requests w |}.

(** The state in which the client is called for [text]. *)
Definition sending (text : string) (w : world) : world :=
  logged {| level := INFO;
            message := "Sending clipboard to Google Gemini. Length: "
                       ++ decimal (String.length text) ++ " chars";
            exc_info := None |} w.

(** A text for a value in the manner of [repr], for the sample values
    below (no escapes in a [str], no detail for an object or a
    [float]). *)
Fixpoint sample_repr (v : pyval) : string :=
  match v with
  | VNone => "None"
  | VStr s => "'" ++ s ++ "'"
  | VList l => "[" ++ String.concat ", " (map sample_repr l) ++ "]"
  | VObj _ => "<object>"
  | VInt n => decimal_Z n
  | VFloat _ => "<float>"
  | VBool b => if b then "True" else "False"
  end.

(** A [pyperclip] that refuses what is not a [str], an [int], a [float] or
    a [bool], and one that writes the text of any value. *)
Definition pyperclip_strict : clipboard_lib :=
  {| copies := fun _ => false; text_of := sample_repr |}.

Definition pyperclip_lenient : clipboard_lib :=
  {| copies := fun _ => true; text_of := sample_repr |}.

(** Sample services: one that answers Bonjour, one that answers the empty
    text, one that times out, one whose response has no known shape. *)
Definition svc_bonjour : nat -> request -> result pyval :=
  fun _ _ => Ret (VObj [("text", Ret (VStr "Bonjour"))]).

Definition svc_empty : nat -> request -> result pyval :=
  fun _ _ => Ret (VObj [("text", Ret (VStr ""))]).

Definition svc_timeout : nat -> request -> result pyval :=
  fun _ _ => Raise TimeoutError.

Definition svc_shapeless : nat -> request -> result pyval :=
  fun _ _ => Ret (VObj [("prompt_feedback", Ret VNone)]).

(** The state after the first run of scenario 1. *)
Definition world_after_bonjour : world :=
  snd (process_clipboard pyperclip_strict svc_bonjour
         (initial_world (VStr "Translate to French: hello"))).

(** A space, a tab and a line feed. *)
Definition blank_text : string :=
  String " " (String (ascii_of_nat 9) (String (ascii_of_nat 10) "")).

(** The number of actions a thread at [p] has left before it leaves the
    block, at most. *)
Definition steps_left (p : pc) : nat :=
  match p with
  | PStart => 0
  | PLocked => 5
  | PText _ => 4
  | PCall _ => 3
  | PReply _ => 2
  | PCopied _ => 1
  | PExit _ => 0
  | PDone _ => 0
  end.

Definition is_acquire (e : nat * op) : bool :=
  match snd e with Acquire => true | _ => false end.

(** The number of runs that have taken the lock so far. *)
Definition acquired (c : cstate) : nat :=
  List.length (filter is_acquire (trace c)).

(** The shared state once the thread that holds the lock, if any, has
    finished its run. *)
Definition settled (pyperclip : clipboard_lib)
    (gemini : nat -> request -> result pyval) (c : cstate)
  : world :=
  match lock c with
  | None => shared c
  | Some h => snd (run_to_exit pyperclip gemini 5 (pcs c h) (shared c))
  end.

(** The schedule leaves the clipboard to the pipeline. *)
Definition no_user_copy (sched : list action) : bool :=
  forallb (fun a => match a with UserCopy _ => false | _ => true end) sched.

(** Two triggers in a row; the second thread asks for the lock three
    times while the first one holds it. *)
Definition sched_overlap : list action :=
  [Hotkey; Hotkey; Run 0; Run 1; Run 0; Run 1; Run 0; Run 0; Run 1;
   Run 0; Run 0; Run 0; Run 1; Run 1; Run 1; Run 1].

(** ** Further definitions: the requests, the log and the threads *)

(** The request the client builds from its arguments. *)
Definition client_request (prompt_text : string) (model : option string)
    (max_tokens : option Z) (temperature : option Q) : request :=
  {| req_model := default_arg "gemini-2.0-flash-lite" model;
     req_max_output_tokens := default_arg 800%Z max_tokens;
     req_temperature := default_arg 0.2%Q temperature;
     req_prompt := prompt_text |}.

(** The record the client logs before it calls the service. *)
Definition calling_record : log_record :=
  {| level := INFO; message := "Calling Google Gemini API...";
     exc_info := None |}.

(** The record the client logs when it catches [e]. *)
Definition failure_record (e : exc_class) : log_record :=
  {| level := ERROR; message := "Google Gemini request failed";
     exc_info := Some e |}.

(** [_last_processed] holds [None] or a value that is true: never the
    empty text. *)
Definition last_ok (w : world) : bool :=
  match _last_processed w with
  | VNone => true
  | v => truthy v
  end.

(** The user puts [v] on the clipboard between two runs. *)
Definition set_clipboard (v : pyval) (w : world) : world :=
  {| clipboard := v; _last_processed := _last_processed w;
     log := log w; requests := requests w |}.

Definition is_hotkey (a : action) : bool :=
  match a with Hotkey => true | _ => false end.

(** The number of triggers in a schedule. *)
Definition hotkeys (sched : list action) : nat :=
  List.length (filter is_hotkey sched).

(** The threads that have taken the lock, newest first. *)
Definition acquirers (c : cstate) : list nat :=
  map fst (filter is_acquire (trace c)).

(** The thread is inside the block and has not called the client yet. *)
Definition before_call (p : pc) : bool :=
  match p with
  | PLocked | PText _ | PCall _ => true
  | _ => false
  end.

(** The requests the thread that holds the lock may still send. *)
Definition may_call (c : cstate) : nat :=
  match lock c with
  | Some h => if before_call (pcs c h) then 1 else 0
  | None => 0
  end.

(** No thread beyond the started ones has moved. *)
Definition born (c : cstate) : Prop :=
  forall i, nthreads c <= i -> pcs c i = PStart.

(** The four ways a scheduled thread [i] takes [c] to [c']: it waits or
    has nothing to do; it takes the lock; it acts inside the block; it
    releases the lock. *)
Inductive step_shape (pyperclip : clipboard_lib)
    (gemini : nat -> request -> result pyval) (i : nat)
    (c c' : cstate) : Prop :=
| shape_same : c' = c -> step_shape pyperclip gemini i c c'
| shape_acquire :
    i < nthreads c -> pcs c i = PStart -> lock c = None ->
    c' = {| shared := shared c; lock := Some i; nthreads := nthreads c;
            pcs := upd (pcs c) i PLocked;
            trace := (i, Acquire) :: trace c |} ->
    step_shape pyperclip gemini i c c'
| shape_inside :
    i < nthreads c -> in_block (pcs c i) = true ->
    (forall r, pcs c i <> PExit r) ->
    c' = {| shared := snd (thread_step pyperclip gemini (pcs c i) (shared c));
            lock := lock c; nthreads := nthreads c;
            pcs := upd (pcs c) i
                     (next_pc (fst (thread_step pyperclip gemini (pcs c i) (shared c))));
            trace := (i, op_of (pcs c i)) :: trace c |} ->
    step_shape pyperclip gemini i c c'
| shape_release (r : result unit) :
    i < nthreads c -> pcs c i = PExit r ->
    c' = {| shared := shared c; lock := None; nthreads := nthreads c;
            pcs := upd (pcs c) i (PDone r);
            trace := (i, Release) :: trace c |} ->
    step_shape pyperclip gemini i c c'.

(** ** Start-up: [install_package] and [check_and_install_packages] *)

(** The required packages, import name and pip name, in the order of the
    dictionary. *)
Definition REQUIRED_PACKAGES : list (string * string) :=
  [("pyperclip", "pyperclip");
   ("keyboard", "keyboard");
   ("google.generativeai", "google-generativeai")].

(** What [importlib.import_module(name)] does: it returns, raises
    [ImportError] (the module is missing), or raises something else. *)
Inductive import_outcome : Type :=
| Imported
| ImportError
| ImportRaises (e : exc_class).

(** What [subprocess.check_call] of the pip command does: it returns, raises
    [CalledProcessError] (pip ended with a non-zero status), or raises
    something else. *)
Inductive pip_outcome : Type :=
| PipOk
| CalledProcessError
| PipRaises (e : exc_class).

(** The machine the script starts on. *)
Record host : Type := {
  import_module : string -> import_outcome;
  check_call_pip : string -> pip_outcome
}.

(** What start-up does that can be seen: a printed line, a run of pip. *)
Inductive effect : Type :=
| Print (line : string)
| PipInstall (package : string).

(** How start-up ends: it returns and the script goes on to its imports;
    [sys.exit(code)]; [os.execv], which starts the script again; or an
    exception nobody catches. *)
Inductive startup : Type :=
| Returns
| Exits (code : Z)
| Restarts
| Fails (e : exc_class).

Definition install_package (h : host) (package_name : string)
  : result bool * list effect :=
  match check_call_pip h package_name with
  | PipOk => (Ret true, [PipInstall package_name])
  | CalledProcessError => (Ret false, [PipInstall package_name])
  | PipRaises e => (Raise e, [PipInstall package_name])
  end.

(** The first loop of [check_and_install_packages]: the pip names of the
    modules whose import raises [ImportError]. *)
Fixpoint find_missing (h : host) (packages : list (string * string))
  : result (list string) :=
  match packages with
  | [] => Ret []
  | (import_name, pip_name) :: rest =>
      match import_module h import_name with
      | Imported => find_missing h rest
      | ImportError =>
          (missing <- find_missing h rest ;; Ret (pip_name :: missing))%py
      | ImportRaises e => Raise e
      end
  end.

(** The second loop, and what follows it when every install succeeds. *)
Fixpoint install_all (h : host) (missing_packages : list string)
  : startup * list effect :=
  match missing_packages with
  | [] =>
      (Restarts, [Print "All packages installed successfully. Restarting..."])
  | package :: rest =>
      let (r, fx) := install_package h package in
      let fx := Print ("Installing " ++ package ++ "...") :: fx in
      match r with
      | Ret true =>
          let (s, fx') := install_all h rest in
          (s, fx ++ Print ("Successfully installed " ++ package) :: fx')
      | Ret false =>
          (Exits 1, fx ++ [Print ("Failed to install " ++ package)])
      | Raise e => (Fails e, fx)
      end
  end.

Definition check_and_install_packages (h : host)
    (packages : list (string * string)) : startup * list effect :=
  match find_missing h packages with
  | Raise e => (Fails e, [])
  | Ret [] => (Returns, [])
  | Ret missing_packages =>
      let (s, fx) := install_all h missing_packages in
      (s, Print ("Installing missing packages: "
                 ++ String.concat ", " missing_packages) :: fx)
  end.

(** The packages pip was run for, in order. *)
Fixpoint pip_runs (fx : list effect) : list string :=
  match fx with
  | [] => []
  | PipInstall package :: rest => package :: pip_runs rest
  | Print _ :: rest => pip_runs rest
  end.

(** The pip names of the packages whose import raises [ImportError]. *)
Fixpoint missing_of (h : host) (packages : list (string * string))
  : list string :=
  match packages with
  | [] => []
  | (import_name, pip_name) :: rest =>
      match import_module h import_name with
      | ImportError => pip_name :: missing_of h rest
      | _ => missing_of h rest
      end
  end.

(** No import raises anything but [ImportError]. *)
Fixpoint imports_settle (h : host) (packages : list (string * string)) : bool :=
  match packages with
  | [] => true
  | (import_name, _) :: rest =>
      match import_module h import_name with
      | ImportRaises _ => false
      | _ => imports_settle h rest
      end
  end.

(** A host without the Gemini client, where pip works; and one where pip
    fails for that package. *)
Definition host_without_genai : host :=
  {| import_module := fun name =>
       if String.eqb name "google.generativeai" then ImportError else Imported;
     check_call_pip := fun _ => PipOk |}.

Definition host_pip_broken : host :=
  {| import_module := fun name =>
       if String.eqb name "pyperclip" then Imported else ImportError;
     check_call_pip := fun package =>
       if String.eqb package "keyboard" then PipOk else CalledProcessError |}.

(** ** [main] *)

(** The [keyboard] library: what registering a hotkey and waiting for one
    do. *)
Record keyboard_lib : Type := {
  add_hotkey : string -> result unit;
  wait : string -> result unit
}.

(** How [main] ends: [sys.exit(code)], or an exception nobody catches. *)
Inductive main_end : Type :=
| MainExits (code : Z)
| MainRaises (e : exc_class).

(** [main], with the records it logs itself. *)
Definition main (kb : keyboard_lib) (w : world) : main_end * world :=
  let hotkey := "alt+g" in
  let w1 := logged {| level := INFO;
                      message := "Clipboard AI service started. Hotkey: "
                                 ++ hotkey;
                      exc_info := None |} w in
  match add_hotkey kb hotkey with
  | Raise e => (MainRaises e, w1)
  | Ret _ =>
      let w2 := logged {| level := INFO;
                          message := "Service running in background. Press Alt+ESC to exit.";
                          exc_info := None |} w1 in
      (* try: keyboard.wait("alt+x")  except KeyboardInterrupt: pass *)
      let pending :=
        match wait kb "alt+x" with
        | Ret _ => Ret tt
        | Raise KeyboardInterrupt => Ret tt
        | Raise e => Raise e
        end in
      (* finally: logging.info(...); sys.exit(0), which replaces what is
         pending *)
      let w3 := logged {| level := INFO;
                          message := "Clipboard AI service stopped.";
                          exc_info := None |} w2 in
      match pending with
      | Ret _ => (MainExits 0, w3)
      | Raise _ => (MainExits 0, w3)
      end
  end.

(** ** Further sample data *)


(** A service interrupted from the keyboard. *)
Definition svc_interrupt : nat -> request -> result pyval :=
  fun _ _ => Raise KeyboardInterrupt.

(** A service whose reply is a list. *)
Definition svc_list : nat -> request -> result pyval :=
  fun _ _ => Ret (VObj [("text", Ret (VList [VStr "a"]))]).

(** A schedule that leaves thread 0 in the middle of its run. *)
Definition sched_midway : list action := [Hotkey; Run 0; Run 0; Run 0].

(** Five triggers in a row, the threads scheduled in turn. *)
Definition sched_five : list action :=
  repeat Hotkey 5
  ++ concat (repeat [Run 0; Run 1; Run 2; Run 3; Run 4] 40).

(** ** White space *)

Lemma lstrip_all_space s : all_space s = true -> lstrip s = "".
Proof.
  induction s as [|c s IH]; simpl; [reflexivity|].
  intros H. apply andb_true_iff in H. destruct H as [Hc Hs].
  rewrite Hc. apply IH, Hs.
Qed.

Lemma lstrip_not_all_space s :
  all_space s = false ->
  exists c r, lstrip s = String c r /\ isspace c = false.
Proof.
  induction s as [|c s IH]; simpl; [discriminate|].
  destruct (isspace c) eqn:Hc; simpl.
  - exact IH.
  - intros _. exists c, s. split; [reflexivity | exact Hc].
Qed.

Lemma rstrip_head_not_space c r :
  isspace c = false -> rstrip (String c r) <> "".
Proof.
  intros Hc. simpl. rewrite Hc. destruct (rstrip r); discriminate.
Qed.

Lemma strip_empty_iff s : strip s = "" <-> all_space s = true.
Proof.
  unfold strip. split.
  - intros H. destruct (all_space s) eqn:Hs; [reflexivity|].
    destruct (lstrip_not_all_space s Hs) as (c & r & Hl & Hc).
    rewrite Hl in H. exfalso. exact (rstrip_head_not_space c r Hc H).
  - intros H. rewrite (lstrip_all_space s H). reflexivity.
Qed.

Lemma strip_eqb s : String.eqb (strip s) "" = all_space s.
Proof.
  destruct (all_space s) eqn:Hs.
  - apply String.eqb_eq, strip_empty_iff, Hs.
  - apply String.eqb_neq. intros H. apply strip_empty_iff in H. congruence.
Qed.

(** ** Extraction *)

Lemma extract_direct resp v :
  direct_field resp = Ret v -> extract_text_from_response resp = Ret v.
Proof.
  intros H. unfold extract_text_from_response. rewrite H. reflexivity.
Qed.

Lemma extract_never_raises_Exception resp e :
  extract_text_from_response resp = Raise e -> is_Exception e = false.
Proof.
  unfold extract_text_from_response, try_except.
  destruct (direct_field resp) as [v|e1]; [discriminate|].
  destruct (is_Exception e1) eqn:H1; [|congruence].
  destruct (nested_candidate resp) as [v|e2]; [discriminate|].
  destruct (is_Exception e2) eqn:H2; [|congruence].
  destruct (alternate_nested resp) as [v|e3]; [discriminate|].
  destruct (is_Exception e3) eqn:H3; [discriminate|congruence].
Qed.

Lemma extract_no_text resp :
  forallb (no_text_under resp) priority = true ->
  extract_text_from_response resp = Ret VNone.
Proof.
  unfold priority, forallb, no_text_under, access.
  unfold extract_text_from_response, try_except.
  destruct (direct_field resp) as [[| | | | | |]|e]; try discriminate;
    [reflexivity|].
  destruct (is_Exception e); [|discriminate]. simpl.
  destruct (nested_candidate resp) as [[| | | | | |]|e']; try discriminate;
    [reflexivity|].
  destruct (is_Exception e'); [|discriminate]. simpl.
  destruct (alternate_nested resp) as [[| | | | | |]|e'']; try discriminate;
    [reflexivity|].
  destruct (is_Exception e''); [reflexivity|discriminate].
Qed.

(** C4 as stated fails: with the direct field present but [None], the
    first shape that yields a non-absent value is the alternate one, with
    the text hi, and the code returns [None]. *)
Lemma C4_counterexample :
  spec_extract_text resp_absent_direct = VStr "hi"
  /\ extract_text_from_response resp_absent_direct = Ret VNone
  /\ ~ (forall resp, extract_text_from_response resp
                     = Ret (spec_extract_text resp)).
Proof.
  split; [reflexivity|]. split; [reflexivity|].
  intros H. specialize (H resp_absent_direct). discriminate H.
Qed.

(** C4, amended: the extraction reads the direct field, then the
    nested-candidate shape, then the alternate shape, and its outcome is
    that of the first read that does not raise an [Exception] (the value
    read, be it [None], or the exception outside [Exception] that the read
    raised); when all three raise an [Exception] it returns [None].  In
    particular a text under the direct field is returned whatever the
    nested shapes hold. *)
Theorem C4_extraction_priority :
  forall resp,
    extract_text_from_response resp
    = match find (settles resp) priority with
      | Some sh => access sh resp
      | None => Ret VNone
      end
    /\ (forall s, access DirectField resp = Ret (VStr s) ->
                  extract_text_from_response resp = Ret (VStr s)).
Proof.
  intros resp. split.
  - unfold extract_text_from_response, priority, find, settles, access.
    destruct (direct_field resp) as [v|e]; simpl; [reflexivity|].
    destruct (is_Exception e); simpl; [|reflexivity].
    destruct (nested_candidate resp) as [v'|e']; simpl; [reflexivity|].
    destruct (is_Exception e'); simpl; [|reflexivity].
    destruct (alternate_nested resp) as [v''|e'']; simpl; [reflexivity|].
    destruct (is_Exception e''); reflexivity.
  - intros s H. apply extract_direct. exact H.
Qed.

Lemma C4_extraction_priority_witness :
  access NestedCandidate resp_all_shapes = Ret (VStr "nested")
  /\ access AlternateNested resp_all_shapes = Ret (VStr "alternate")
  /\ extract_text_from_response resp_all_shapes = Ret (VStr "direct").
Proof.
  split; [reflexivity|]. split; [reflexivity|].
  apply (proj2 (C4_extraction_priority resp_all_shapes) "direct").
  reflexivity.
Defined.

(** ** The client *)

Section Client.

Variable gemini : nat -> request -> result pyval.

Lemma send_prompt_result prompt model max_tokens temperature w :
  let req := {| req_model := default_arg "gemini-2.0-flash-lite" model;
                req_max_output_tokens := default_arg 800%Z max_tokens;
                req_temperature := default_arg 0.2%Q temperature;
                req_prompt := prompt |} in
  fst (send_prompt_to_gemini gemini prompt model max_tokens temperature w)
  = client_result (gemini (List.length (requests w)) req).
Proof.
  intros req. unfold send_prompt_to_gemini, try_exceptM, bind, logging_info,
    emit, generate_content, lift, ret, logging_exception, client_result.
  simpl. fold req.
  destruct (gemini (List.length (requests w)) req) as [resp|e]; simpl.
  - destruct (extract_text_from_response resp) as [v|e]; simpl;
      [reflexivity|]. destruct (is_Exception e); reflexivity.
  - destruct (is_Exception e); reflexivity.
Qed.

Lemma send_prompt_world prompt model max_tokens temperature w :
  let req := {| req_model := default_arg "gemini-2.0-flash-lite" model;
                req_max_output_tokens := default_arg 800%Z max_tokens;
                req_temperature := default_arg 0.2%Q temperature;
                req_prompt := prompt |} in
  let w' := snd (send_prompt_to_gemini gemini prompt model max_tokens
                   temperature w) in
  clipboard w' = clipboard w /\ _last_processed w' = _last_processed w
  /\ requests w' = req :: requests w.
Proof.
  intros req. unfold send_prompt_to_gemini, try_exceptM, bind, logging_info,
    emit, generate_content, lift, ret, logging_exception.
  simpl. fold req.
  destruct (gemini (List.length (requests w)) req) as [resp|e]; simpl.
  - destruct (extract_text_from_response resp) as [v|e]; simpl;
      [auto|]. destruct (is_Exception e); simpl; auto.
  - destruct (is_Exception e); simpl; auto.
Qed.

Lemma client_result_failure o :
  remote_failure o = true -> client_result o = Ret VNone.
Proof.
  destruct o as [resp|e]; simpl; intros H.
  - rewrite (extract_no_text resp H). reflexivity.
  - destruct e; try discriminate H; reflexivity.
Qed.

End Client.

(** C10: called without options, the client sends its request for the
    model gemini-2.0-flash-lite, a flash (fast) lite variant, with at most
    800 output tokens and the temperature 0.2; and these are the options
    of the request that [process_clipboard] sends. *)
Theorem C10_default_options :
  forall gemini prompt w,
    requests (snd (send_prompt_to_gemini gemini prompt None None None w))
    = {| req_model := "gemini-2.0-flash-lite";
         req_max_output_tokens := 800;
         req_temperature := 0.2;
         req_prompt := prompt |} :: requests w
    /\ (0.2 == 1 # 5)%Q
    /\ default_request prompt
       = {| req_model := "gemini-2.0-flash-lite";
            req_max_output_tokens := 800;
            req_temperature := 0.2;
            req_prompt := prompt |}.
Proof.
  intros gemini prompt w. split; [|split; reflexivity].
  apply (send_prompt_world gemini prompt None None None w).
Qed.

(** C7: when the remote call fails in one of the listed ways (network
    error, timeout, authentication error, rate limit, malformed payload,
    or a response from which no shape yields a text), the client returns
    [None], whatever options it was called with: it raises nothing. *)
Theorem C7_uniform_failure :
  forall gemini prompt model max_tokens temperature w,
    remote_failure
      (gemini (List.length (requests w))
         {| req_model := default_arg "gemini-2.0-flash-lite" model;
            req_max_output_tokens := default_arg 800%Z max_tokens;
            req_temperature := default_arg 0.2%Q temperature;
            req_prompt := prompt |}) = true ->
    fst (send_prompt_to_gemini gemini prompt model max_tokens temperature w)
    = Ret VNone.
Proof.
  intros gemini prompt model max_tokens temperature w H.
  rewrite send_prompt_result. apply client_result_failure. exact H.
Qed.

(** ** One run of the pipeline *)

Section Run.

Variable pyperclip : clipboard_lib.
Variable gemini : nat -> request -> result pyval.

Lemma run_nothing_to_do w :
  nothing_to_do (clipboard w) = true ->
  process_clipboard pyperclip gemini w
  = (Ret tt,
     logged {| level := INFO;
               message := "Clipboard is empty or not text. Nothing to do.";
               exc_info := None |} w).
Proof.
  unfold process_clipboard, bind, paste, nothing_to_do.
  destruct (clipboard w) as [|s|l|a|n|q|b]; try reflexivity.
  intros H. rewrite strip_eqb, H. reflexivity.
Qed.

Lemma run_duplicate w text :
  clipboard w = VStr text -> all_space text = false ->
  str_eq text (_last_processed w) = true ->
  process_clipboard pyperclip gemini w
  = (Ret tt,
     logged {| level := INFO;
               message := "Clipboard text equals last processed text. Skipping.";
               exc_info := None |} w).
Proof.
  intros Hc Hs He. unfold process_clipboard, bind, paste. rewrite Hc.
  rewrite strip_eqb, Hs. unfold dispatch, bind, get_last_processed.
  rewrite He. reflexivity.
Qed.

Lemma run_call w text :
  reaches_call w text ->
  process_clipboard pyperclip gemini w
  = bind (send_prompt_to_gemini gemini text None None None)
         (handle_response pyperclip) (sending text w).
Proof.
  intros (Hc & Hs & He). unfold process_clipboard at 1, bind at 1, paste.
  rewrite Hc. rewrite strip_eqb, Hs.
  unfold dispatch, bind at 1, get_last_processed. rewrite He.
  reflexivity.
Qed.

Lemma client_in_run w text :
  fst (send_prompt_to_gemini gemini text None None None (sending text w))
  = client_result (service_outcome gemini w text).
Proof. apply send_prompt_result. Qed.

Lemma handle_falsy v w :
  truthy v = false ->
  handle_response pyperclip v w
  = (Ret tt,
     logged {| level := ERROR;
               message := "No response from Google Gemini. Clipboard not changed.";
               exc_info := None |} w).
Proof. intros H. unfold handle_response. rewrite H. reflexivity. Qed.

Lemma handle_text R w :
  R <> "" ->
  handle_response pyperclip (VStr R) w
  = (Ret tt,
     {| clipboard := VStr R; _last_processed := VStr R;
        log := {| level := INFO;
                  message := "Clipboard updated with Gemini response. Length: "
                             ++ decimal (String.length R) ++ " chars";
                  exc_info := None |} :: log w;
        requests := requests w |}).
Proof.
  intros H. unfold handle_response. simpl.
  apply String.eqb_neq in H. rewrite H. reflexivity.
Qed.

Lemma handle_refused v w :
  truthy v = true -> copy_ok pyperclip v = false ->
  handle_response pyperclip v w = (Raise PyperclipException, w).
Proof.
  intros Ht Hc. unfold handle_response, bind, copy. rewrite Ht, Hc.
  reflexivity.
Qed.

Lemma handle_accepted v w :
  truthy v = true -> copy_ok pyperclip v = true ->
  handle_response pyperclip v w
  = let w1 := {| clipboard := VStr (clip_text pyperclip v);
                 _last_processed := v;
                 log := log w; requests := requests w |} in
    match len v with
    | Ret n =>
        (Ret tt,
         logged {| level := INFO;
                   message := "Clipboard updated with Gemini response. Length: "
                              ++ decimal n ++ " chars";
                   exc_info := None |} w1)
    | Raise e => (Raise e, w1)
    end.
Proof.
  intros Ht Hc.
  unfold handle_response, bind, copy, set_last_processed, lift.
  rewrite Ht, Hc. cbn [clipboard _last_processed log requests].
  destruct (len v); reflexivity.
Qed.

(** What a run that reaches the call does, by the result of the client. *)
Lemma run_call_cases w text :
  reaches_call w text ->
  let w2 := snd (send_prompt_to_gemini gemini text None None None
                   (sending text w)) in
  process_clipboard pyperclip gemini w
  = match client_result (service_outcome gemini w text) with
    | Ret v => handle_response pyperclip v w2
    | Raise e => (Raise e, w2)
    end.
Proof.
  intros H w2. rewrite (run_call w text H). unfold bind.
  rewrite <- client_in_run. subst w2.
  destruct (send_prompt_to_gemini gemini text None None None (sending text w))
    as [[v|e] w']; reflexivity.
Qed.

Lemma client_world w text :
  let w2 := snd (send_prompt_to_gemini gemini text None None None
                   (sending text w)) in
  clipboard w2 = clipboard w /\ _last_processed w2 = _last_processed w
  /\ requests w2 = default_request text :: requests w.
Proof.
  exact (send_prompt_world gemini text None None None (sending text w)).
Qed.

(** A clipboard content either leaves nothing to do, or is a text that
    repeats the last processed one, or makes the run reach the call. *)
Lemma run_paths w :
  nothing_to_do (clipboard w) = true
  \/ (exists text, clipboard w = VStr text /\ all_space text = false
                   /\ str_eq text (_last_processed w) = true)
  \/ (exists text, reaches_call w text).
Proof.
  unfold reaches_call, nothing_to_do.
  destruct (clipboard w) as [|s|l|a|n|q|b]; auto.
  destruct (all_space s) eqn:Hs; auto.
  destruct (str_eq s (_last_processed w)) eqn:He.
  - right. left. exists s. auto.
  - right. right. exists s. auto.
Qed.

End Run.

Lemma C7_uniform_failure_witness :
  fst (send_prompt_to_gemini svc_timeout "hello" None None None
         (initial_world (VStr "hello"))) = Ret VNone
  /\ fst (send_prompt_to_gemini svc_shapeless "hello" (Some "gemini-pro")
            (Some 64%Z) None (initial_world (VStr "hello"))) = Ret VNone.
Proof.
  split; apply C7_uniform_failure; reflexivity.
Defined.

(** C1 as stated fails for the empty text: the service answers with the
    text of length 0, the run reaches the call, and the clipboard keeps
    hello while [_last_processed] stays [None]. *)
Lemma C1_counterexample :
  let w := initial_world (VStr "hello") in
  let w' := snd (process_clipboard pyperclip_strict svc_empty w) in
  reaches_call w "hello"
  /\ service_outcome svc_empty w "hello" = Ret (VObj [("text", Ret (VStr ""))])
  /\ extract_text_from_response (VObj [("text", Ret (VStr ""))]) = Ret (VStr "")
  /\ clipboard w' = VStr "hello" /\ _last_processed w' = VNone
  /\ ~ (forall pyperclip gemini w text resp R,
          reaches_call w text ->
          service_outcome gemini w text = Ret resp ->
          extract_text_from_response resp = Ret (VStr R) ->
          clipboard (snd (process_clipboard pyperclip gemini w)) = VStr R
          /\ _last_processed (snd (process_clipboard pyperclip gemini w)) = VStr R).
Proof.
  simpl. repeat split.
  intros H.
  destruct (H pyperclip_strict svc_empty (initial_world (VStr "hello")) "hello"
              (VObj [("text", Ret (VStr ""))]) "") as [Hc _];
    try (repeat split).
  discriminate Hc.
Qed.

(** C1, amended: when a run reaches the remote call and the call succeeds
    with a text R that is not empty, then after the run the clipboard
    holds R and the last processed text is R. *)
Theorem C1_success_replaces_clipboard :
  forall pyperclip gemini w text resp R,
    reaches_call w text ->
    service_outcome gemini w text = Ret resp ->
    extract_text_from_response resp = Ret (VStr R) ->
    R <> "" ->
    fst (process_clipboard pyperclip gemini w) = Ret tt
    /\ clipboard (snd (process_clipboard pyperclip gemini w)) = VStr R
    /\ _last_processed (snd (process_clipboard pyperclip gemini w)) = VStr R.
Proof.
  intros pyperclip gemini w text resp R Hreach Ho He HR.
  rewrite (run_call_cases pyperclip gemini w text Hreach).
  rewrite Ho. simpl. rewrite He.
  rewrite (handle_text pyperclip R _ HR). simpl. auto.
Qed.

Lemma C1_success_replaces_clipboard_witness :
  let w := initial_world (VStr "Translate to French: hello") in
  fst (process_clipboard pyperclip_strict svc_bonjour w) = Ret tt
  /\ clipboard (snd (process_clipboard pyperclip_strict svc_bonjour w)) = VStr "Bonjour"
  /\ _last_processed (snd (process_clipboard pyperclip_strict svc_bonjour w)) = VStr "Bonjour".
Proof.
  apply (C1_success_replaces_clipboard pyperclip_strict svc_bonjour
           (initial_world (VStr "Translate to French: hello"))
           "Translate to French: hello"
           (VObj [("text", Ret (VStr "Bonjour"))]) "Bonjour").
  - repeat split.
  - reflexivity.
  - reflexivity.
  - discriminate.
Defined.

(** C3: whatever text the clipboard holds, when the remote call fails (it
    raises, or no usable reply comes out of the response), the run leaves
    the clipboard and the last processed text as they were. *)
Theorem C3_failed_call_unchanged :
  forall pyperclip gemini w text,
    clipboard w = VStr text ->
    no_usable_reply (service_outcome gemini w text) = true ->
    clipboard (snd (process_clipboard pyperclip gemini w)) = clipboard w
    /\ _last_processed (snd (process_clipboard pyperclip gemini w)) = _last_processed w.
Proof.
  intros pyperclip gemini w text Hc Hfail.
  destruct (run_paths w) as [Hn | [(t & Ht & Hs & He) | (t & Hreach)]].
  - rewrite (run_nothing_to_do pyperclip gemini w Hn). auto.
  - rewrite (run_duplicate pyperclip gemini w t Ht Hs He). auto.
  - assert (t = text) by (destruct Hreach as [Ht _]; congruence). subst t.
    rewrite (run_call_cases pyperclip gemini w text Hreach).
    destruct (client_world gemini w text) as (Hcl & Hla & _).
    unfold no_usable_reply in Hfail. unfold client_result.
    destruct (service_outcome gemini w text) as [resp|e].
    + destruct (extract_text_from_response resp) as [v|e] eqn:Hx.
      * apply negb_true_iff in Hfail. rewrite (handle_falsy pyperclip v _ Hfail).
        simpl. auto.
      * rewrite (extract_never_raises_Exception resp e Hx). simpl. auto.
    + destruct (is_Exception e).
      * rewrite handle_falsy by reflexivity. simpl. auto.
      * simpl. auto.
Qed.

Lemma C3_failed_call_unchanged_witness :
  let w := initial_world (VStr "hello") in
  clipboard (snd (process_clipboard pyperclip_strict svc_timeout w)) = VStr "hello"
  /\ _last_processed (snd (process_clipboard pyperclip_strict svc_timeout w)) = VNone.
Proof.
  apply (C3_failed_call_unchanged pyperclip_strict svc_timeout (initial_world (VStr "hello"))
           "hello"); reflexivity.
Defined.

Lemma str_eq_refl text : str_eq text (VStr text) = true.
Proof. apply String.eqb_refl. Qed.

(** C5: when the clipboard text equals the last processed text, the run
    returns at once: the client is not called (no request is added), and
    the clipboard and the last processed text stay. *)
Theorem C5_duplicate_no_call :
  forall pyperclip gemini w text,
    clipboard w = VStr text ->
    _last_processed w = VStr text ->
    fst (process_clipboard pyperclip gemini w) = Ret tt
    /\ requests (snd (process_clipboard pyperclip gemini w)) = requests w
    /\ clipboard (snd (process_clipboard pyperclip gemini w)) = clipboard w
    /\ _last_processed (snd (process_clipboard pyperclip gemini w)) = _last_processed w.
Proof.
  intros pyperclip gemini w text Hc Hl.
  destruct (all_space text) eqn:Hs.
  - rewrite run_nothing_to_do; [simpl; auto|].
    rewrite Hc. exact Hs.
  - rewrite (run_duplicate pyperclip gemini w text Hc Hs); [simpl; auto|].
    rewrite Hl. apply str_eq_refl.
Qed.

Lemma C5_duplicate_no_call_witness :
  clipboard world_after_bonjour = VStr "Bonjour"
  /\ List.length (requests world_after_bonjour) = 1
  /\ fst (process_clipboard pyperclip_strict svc_bonjour world_after_bonjour) = Ret tt
  /\ requests (snd (process_clipboard pyperclip_strict svc_bonjour world_after_bonjour))
     = requests world_after_bonjour.
Proof.
  split; [reflexivity|]. split; [reflexivity|].
  destruct (C5_duplicate_no_call pyperclip_strict svc_bonjour world_after_bonjour "Bonjour")
    as (H1 & H2 & _); [reflexivity | reflexivity |].
  split; [exact H1 | exact H2].
Defined.

(** C6: when the clipboard content is absent, not a text, empty or made
    of white space only, the run is a no-op: it returns, the clipboard and
    the last processed text are unchanged and the client is not called. *)
Theorem C6_nothing_to_do :
  forall pyperclip gemini w,
    nothing_to_do (clipboard w) = true ->
    fst (process_clipboard pyperclip gemini w) = Ret tt
    /\ clipboard (snd (process_clipboard pyperclip gemini w)) = clipboard w
    /\ _last_processed (snd (process_clipboard pyperclip gemini w)) = _last_processed w
    /\ requests (snd (process_clipboard pyperclip gemini w)) = requests w.
Proof.
  intros pyperclip gemini w H. rewrite (run_nothing_to_do pyperclip gemini w H). simpl. auto.
Qed.

Lemma C6_nothing_to_do_witness :
  (nothing_to_do VNone = true /\ nothing_to_do (VList [VStr "a"]) = true
   /\ nothing_to_do (VStr "") = true /\ nothing_to_do (VStr blank_text) = true
   /\ nothing_to_do (VStr " a ") = false)
  /\ clipboard (snd (process_clipboard pyperclip_strict svc_bonjour
                       (initial_world (VStr blank_text)))) = VStr blank_text
  /\ requests (snd (process_clipboard pyperclip_strict svc_bonjour
                      (initial_world (VStr "")))) = [].
Proof.
  split; [repeat split|]. split.
  - apply (C6_nothing_to_do pyperclip_strict svc_bonjour (initial_world (VStr blank_text))).
    reflexivity.
  - apply (C6_nothing_to_do pyperclip_strict svc_bonjour (initial_world (VStr ""))).
    reflexivity.
Defined.

(** What a run that reaches the call does to the last processed text and
    to the clipboard, by the reply it writes. *)
Lemma run_written pyperclip gemini w text :
  reaches_call w text ->
  let w' := snd (process_clipboard pyperclip gemini w) in
  match reply_of (service_outcome gemini w text) with
  | Some v =>
      if truthy v && copy_ok pyperclip v
      then _last_processed w' = v
           /\ clipboard w' = VStr (clip_text pyperclip v)
      else _last_processed w' = _last_processed w
           /\ clipboard w' = clipboard w
  | None => _last_processed w' = _last_processed w
            /\ clipboard w' = clipboard w
  end.
Proof.
  intros Hreach w'. subst w'.
  rewrite (run_call_cases pyperclip gemini w text Hreach).
  destruct (client_world gemini w text) as (Hcl & Hla & _).
  unfold reply_of, client_result.
  destruct (service_outcome gemini w text) as [resp|e].
  - destruct (extract_text_from_response resp) as [v|e] eqn:Hx.
    + destruct (truthy v) eqn:Hv; cbn [andb].
      * destruct (copy_ok pyperclip v) eqn:Hc.
        -- rewrite (handle_accepted pyperclip v _ Hv Hc). cbv zeta.
           destruct (len v); split; reflexivity.
        -- rewrite (handle_refused pyperclip v _ Hv Hc). auto.
      * rewrite (handle_falsy pyperclip v _ Hv). auto.
    + rewrite (extract_never_raises_Exception resp e Hx). auto.
  - destruct (is_Exception e); [rewrite handle_falsy by reflexivity|]; auto.
Qed.





(** C9: when the run reaches the remote call and the call succeeds with
    the empty text, the run takes the failure branch: it logs that there
    is no response, the clipboard is not written and the last processed
    text is unchanged; its result, clipboard, last processed text and
    last log record are those of a run whose call failed. *)
Theorem C9_empty_reply_is_failure :
  forall pyperclip gemini w text resp,
    reaches_call w text ->
    service_outcome gemini w text = Ret resp ->
    extract_text_from_response resp = Ret (VStr "") ->
    let r := process_clipboard pyperclip gemini w in
    fst r = Ret tt
    /\ clipboard (snd r) = clipboard w
    /\ _last_processed (snd r) = _last_processed w
    /\ hd_error (log (snd r))
       = Some {| level := ERROR;
                 message := "No response from Google Gemini. Clipboard not changed.";
                 exc_info := None |}
    /\ forall gemini',
         remote_failure (service_outcome gemini' w text) = true ->
         let r' := process_clipboard pyperclip gemini' w in
         fst r' = fst r
         /\ clipboard (snd r') = clipboard (snd r)
         /\ _last_processed (snd r') = _last_processed (snd r)
         /\ hd_error (log (snd r')) = hd_error (log (snd r)).
Proof.
  intros pyperclip gemini w text resp Hreach Ho Hx r.
  assert (Hr : r = (Ret tt,
                    logged {| level := ERROR;
                              message := "No response from Google Gemini. Clipboard not changed.";
                              exc_info := None |}
                      (snd (send_prompt_to_gemini gemini text None None None
                              (sending text w))))).
  { subst r. rewrite (run_call_cases pyperclip gemini w text Hreach).
    rewrite Ho. simpl. rewrite Hx. apply handle_falsy. reflexivity. }
  destruct (client_world gemini w text) as (Hcl & Hla & _).
  rewrite Hr. simpl. split; [reflexivity|]. split; [exact Hcl|].
  split; [exact Hla|]. split; [reflexivity|].
  intros gemini' Hfail.
  rewrite (run_call_cases pyperclip gemini' w text Hreach).
  destruct (client_world gemini' w text) as (Hcl' & Hla' & _).
  rewrite (client_result_failure _ Hfail), handle_falsy by reflexivity.
  simpl. repeat split; congruence.
Qed.

Lemma C9_empty_reply_is_failure_witness :
  let w := initial_world (VStr "hello") in
  clipboard (snd (process_clipboard pyperclip_strict svc_empty w)) = VStr "hello"
  /\ _last_processed (snd (process_clipboard pyperclip_strict svc_empty w)) = VNone
  /\ clipboard (snd (process_clipboard pyperclip_strict svc_timeout w))
     = clipboard (snd (process_clipboard pyperclip_strict svc_empty w)).
Proof.
  destruct (C9_empty_reply_is_failure pyperclip_strict svc_empty (initial_world (VStr "hello"))
              "hello" (VObj [("text", Ret (VStr ""))]))
    as (_ & Hc & Hl & _ & Hsame).
  - repeat split.
  - reflexivity.
  - reflexivity.
  - split; [exact Hc|]. split; [exact Hl|].
    apply (Hsame svc_timeout). reflexivity.
Defined.

(** ** Threads *)

Section Threads.

Variable pyperclip : clipboard_lib.
Variable gemini : nat -> request -> result pyval.

(** The actions of a thread between taking and releasing the lock are the
    body of [process_clipboard]. *)
Lemma run_to_exit_process w :
  run_to_exit pyperclip gemini 5 PLocked w = process_clipboard pyperclip gemini w.
Proof.
  unfold process_clipboard, dispatch, handle_response.
  cbn -[send_prompt_to_gemini strip decimal String.append String.eqb copy].
  unfold paste, bind.
  cbn -[send_prompt_to_gemini strip decimal String.append String.eqb copy].
  destruct (clipboard w) as [|s|l|a|n|q|b]; try reflexivity.
  cbn -[send_prompt_to_gemini strip decimal String.append String.eqb copy].
  destruct (String.eqb (strip s) ""); [reflexivity|].
  cbn -[send_prompt_to_gemini strip decimal String.append String.eqb copy].
  destruct (str_eq s (_last_processed w)); [reflexivity|].
  cbn -[send_prompt_to_gemini strip decimal String.append String.eqb copy].
  unfold bind.
  destruct (send_prompt_to_gemini gemini s None None None _) as [[v|e] w2];
    [|reflexivity].
  cbn -[send_prompt_to_gemini strip decimal String.append String.eqb copy].
  destruct (truthy v); [|reflexivity].
  cbn -[send_prompt_to_gemini strip decimal String.append String.eqb copy].
  unfold bind.
  destruct (copy pyperclip v w2) as [[[]|e] w3]; [|reflexivity].
  cbn -[send_prompt_to_gemini strip decimal String.append String.eqb copy].
  unfold bind.
  cbn -[send_prompt_to_gemini strip decimal String.append String.eqb copy].
  destruct (len v) as [n|e]; reflexivity.
Qed.

(** An action inside the block leaves the thread inside the block. *)
Lemma thread_step_in_block p w :
  in_block p = true ->
  in_block (next_pc (fst (thread_step pyperclip gemini p w))) = true.
Proof.
  destruct p as [| |text|s|v|v|r|r]; try discriminate; intros _;
    try reflexivity.
  - cbn -[strip String.eqb String.append decimal].
    destruct text as [|s|l|a|n|q|b]; try reflexivity.
    destruct (String.eqb (strip s) ""); [reflexivity|].
    unfold bind, get_last_processed.
    destruct (str_eq s (_last_processed w)); reflexivity.
  - unfold thread_step, bind.
    destruct (send_prompt_to_gemini gemini s None None None w) as [[v|e] w2];
      reflexivity.
  - unfold thread_step. destruct (truthy v); [|reflexivity].
    unfold bind. destruct (copy pyperclip v w) as [[[]|e] w2]; reflexivity.
  - unfold thread_step, bind, set_last_processed, lift.
    destruct (len v); reflexivity.
Qed.

Lemma op_of_in_block p :
  in_block p = true -> (forall r, p <> PExit r) ->
  op_of p <> Release /\ op_of p <> Acquire.
Proof.
  destruct p as [| |text|s|v|v|r|r]; try discriminate; intros _ Hx;
    try (split; discriminate).
  - simpl. destruct (truthy v); split; discriminate.
  - exfalso. exact (Hx r eq_refl).
Qed.

Lemma upd_same f i p : upd f i p i = p.
Proof. unfold upd. rewrite Nat.eqb_refl. reflexivity. Qed.

Lemma upd_other f i p k : k <> i -> upd f i p k = f k.
Proof.
  intros H. unfold upd. apply Nat.eqb_neq in H. rewrite H. reflexivity.
Qed.

Lemma outside_block p :
  in_block p = false -> p <> PStart -> exists r, p = PDone r.
Proof.
  destruct p; try discriminate; intros _ H.
  - exfalso. apply H. reflexivity.
  - eexists. reflexivity.
Qed.

Lemma done_outside_block p r : p = PDone r -> in_block p = false.
Proof. intros ->. reflexivity. Qed.

(** The invariant is kept by an event of thread [i], when [i] is not done
    and no other thread is inside the block. *)
Lemma inv_event c c' i o p' :
  Inv c ->
  (forall r, pcs c i <> PDone r) ->
  (forall k, k <> i -> in_block (pcs c k) = false) ->
  p' <> PStart ->
  (o = Release <-> exists r, p' = PDone r) ->
  pcs c' = upd (pcs c) i p' ->
  trace c' = (i, o) :: trace c ->
  lock c' = (if in_block p' then Some i else None) ->
  Inv c'.
Proof.
  intros HI Hnd Hout Hp' Ho Hpcs Htr Hlock.
  assert (Hnr : ~ In (i, Release) (trace c)).
  { intros H. apply (inv_done c HI) in H. destruct H as [r H].
    exact (Hnd r H). }
  assert (Hothers : forall k o0, k <> i -> In (k, o0) (trace c) ->
                                 In (k, Release) (trace c)).
  { intros k o0 Hk Hin. apply (inv_done c HI).
    apply outside_block; [apply Hout, Hk | exact (inv_started c HI k o0 Hin)]. }
  constructor.
  - (* the lock is free *)
    intros Hfree k. rewrite Hpcs. rewrite Hlock in Hfree.
    destruct (Nat.eq_dec k i) as [->|Hk].
    + rewrite upd_same. destruct (in_block p'); [discriminate|reflexivity].
    + rewrite upd_other by exact Hk. apply Hout, Hk.
  - (* the lock is held *)
    intros h Hheld. rewrite Hlock in Hheld.
    destruct (in_block p') eqn:Hb; [|discriminate].
    injection Hheld as <-. rewrite Hpcs. split.
    + rewrite upd_same. exact Hb.
    + intros k Hk. rewrite upd_other by exact Hk. apply Hout, Hk.
  - (* started *)
    intros k o0 Hin. rewrite Hpcs.
    destruct (Nat.eq_dec k i) as [->|Hk].
    + rewrite upd_same. exact Hp'.
    + rewrite upd_other by exact Hk. rewrite Htr in Hin.
      destruct Hin as [Heq|Hin]; [congruence|].
      exact (inv_started c HI k o0 Hin).
  - (* done *)
    intros k. rewrite Htr, Hpcs. split.
    + intros [Heq|Hin].
      * injection Heq as -> ->. rewrite upd_same. apply Ho. reflexivity.
      * assert (Hk : k <> i) by (intros ->; exact (Hnr Hin)).
        rewrite upd_other by exact Hk. apply (inv_done c HI). exact Hin.
    + intros [r Hr]. destruct (Nat.eq_dec k i) as [->|Hk].
      * rewrite upd_same in Hr. left. f_equal. apply Ho.
        exists r. exact Hr.
      * rewrite upd_other in Hr by exact Hk. right.
        apply (inv_done c HI). exists r. exact Hr.
  - (* nothing after a release *)
    intros a b k o0 Heq Hin. rewrite Htr in Heq.
    destruct a as [|e a']; [exact Hin|].
    simpl in Heq. injection Heq as <- Htl.
    destruct Hin as [Hhd|Hin].
    + injection Hhd as <- _. apply Hnr. rewrite Htl.
      apply in_elt.
    + exact (inv_last c HI a' b k o0 Htl Hin).
  - (* order *)
    intros post mid pre i0 j oi oj Hij Heq. rewrite Htr in Heq.
    destruct post as [|e post'].
    + simpl in Heq. injection Heq as <- <- Htl.
      split; [|intros o0 []].
      assert (Hin : In (i0, oi) (trace c)) by (rewrite Htl; apply in_elt).
      pose proof (Hothers i0 oi Hij Hin) as Hrel.
      rewrite Htl in Hrel. apply in_app_or in Hrel.
      destruct Hrel as [Hmid|[Hhd|Hpre]].
      * apply in_or_app. left. exact Hmid.
      * apply in_or_app. right. left. exact Hhd.
      * exfalso. apply in_split in Hpre. destruct Hpre as (a & b & ->).
        apply (inv_last c HI (mid ++ (i0, oi) :: a) b i0 oi).
        -- rewrite Htl. rewrite <- app_assoc. reflexivity.
        -- apply in_elt.
    + simpl in Heq. injection Heq as <- Htl.
      destruct (inv_order c HI post' mid pre i0 j oi oj Hij Htl)
        as [Hrel Hpost].
      split; [exact Hrel|].
      intros o0 [Hhd|Hin]; [|exact (Hpost o0 Hin)].
      injection Hhd as <- _. apply Hnr. rewrite Htl.
      apply in_or_app. right. right.
      apply in_app_or in Hrel. destruct Hrel as [Hmid|[Hhd|[]]].
      * apply in_or_app. left. exact Hmid.
      * apply in_or_app. right. left. exact Hhd.
Qed.

Lemma holder_in_block c i :
  Inv c -> in_block (pcs c i) = true ->
  lock c = Some i /\ forall k, k <> i -> in_block (pcs c k) = false.
Proof.
  intros HI Hb. destruct (lock c) as [h|] eqn:Hl.
  - destruct (inv_held c HI h Hl) as [_ Hothers].
    destruct (Nat.eq_dec i h) as [->|Hne]; [split; [reflexivity|exact Hothers]|].
    rewrite (Hothers i Hne) in Hb. discriminate.
  - rewrite (inv_free c HI Hl i) in Hb. discriminate.
Qed.

Lemma inv_initial clip : Inv (initial_cstate clip).
Proof.
  constructor; simpl.
  - reflexivity.
  - discriminate.
  - intros i o [].
  - intros i. split; [intros [] | intros [r H]; discriminate].
  - intros a b i o H. exfalso. exact (app_cons_not_nil _ _ _ H).
  - intros post mid pre i j oi oj _ H. exfalso.
    exact (app_cons_not_nil _ _ _ H).
Qed.

Lemma inv_hotkey c : Inv c -> Inv (hotkey_callback c).
Proof. intros []. constructor; assumption. Qed.

Lemma inv_user_copy v c : Inv c -> Inv (user_copy v c).
Proof. intros []. constructor; assumption. Qed.

Lemma inv_inside c i :
  Inv c -> in_block (pcs c i) = true -> (forall r, pcs c i <> PExit r) ->
  forall r w',
    thread_step pyperclip gemini (pcs c i) (shared c) = (r, w') ->
    Inv {| shared := w'; lock := lock c; nthreads := nthreads c;
           pcs := upd (pcs c) i (next_pc r);
           trace := (i, op_of (pcs c i)) :: trace c |}.
Proof.
  intros HI Hb Hx r w' Hstep.
  destruct (holder_in_block c i HI Hb) as [Hl Hothers].
  assert (Hb' : in_block (next_pc r) = true).
  { pose proof (thread_step_in_block (pcs c i) (shared c) Hb) as H.
    rewrite Hstep in H. exact H. }
  destruct (op_of_in_block (pcs c i) Hb Hx) as [Hrel _].
  apply (inv_event c _ i (op_of (pcs c i)) (next_pc r) HI); simpl.
  - intros r0 H. rewrite H in Hb. discriminate.
  - exact Hothers.
  - intros H. rewrite H in Hb'. discriminate.
  - split; [intros H; contradiction|].
    intros [r0 H]. rewrite H in Hb'. discriminate.
  - reflexivity.
  - reflexivity.
  - rewrite Hb'. exact Hl.
Qed.

(** The case of [step] for a thread at a point [p] inside the block, from
    the invariant [HI] and the equation [Hp] of the point of thread [i]. *)
Ltac inside_step HI Hp i :=
  match goal with
  | |- Inv (let (_, _) := thread_step ?l ?g ?p (shared ?c) in _) =>
      let r := fresh "r" in
      let w' := fresh "w'" in
      let Hs := fresh "Hs" in
      let H := fresh "H" in
      destruct (thread_step l g p (shared c)) as [r w'] eqn:Hs;
      pose proof (inv_inside c i HI) as H;
      rewrite Hp in H;
      apply H; [reflexivity | discriminate | exact Hs]
  end.

Lemma inv_step i c : Inv c -> Inv (step pyperclip gemini i c).
Proof.
  intros HI. unfold step.
  destruct (negb (Nat.ltb i (nthreads c))); [exact HI|].
  destruct (pcs c i) as [| |text|s|v|v|r|r] eqn:Hp.
  - (* taking the lock *)
    destruct (lock c) as [h|] eqn:Hl; [exact HI|].
    apply (inv_event c _ i Acquire PLocked HI); simpl.
    + intros r H. congruence.
    + intros k _. exact (inv_free c HI Hl k).
    + discriminate.
    + split; [discriminate | intros [r H]; discriminate].
    + reflexivity.
    + reflexivity.
    + reflexivity.
  - inside_step HI Hp i.
  - inside_step HI Hp i.
  - inside_step HI Hp i.
  - inside_step HI Hp i.
  - inside_step HI Hp i.
  - (* releasing the lock *)
    assert (Hb : in_block (pcs c i) = true) by (rewrite Hp; reflexivity).
    destruct (holder_in_block c i HI Hb) as [Hl Hothers].
    apply (inv_event c _ i Release (PDone r) HI); simpl.
    + intros r0 H. congruence.
    + exact Hothers.
    + discriminate.
    + split; [intros _; exists r; reflexivity | reflexivity].
    + reflexivity.
    + reflexivity.
    + reflexivity.
  - exact HI.
Qed.

Lemma inv_exec sched : forall c, Inv c -> Inv (exec pyperclip gemini sched c).
Proof.
  induction sched as [|a sched IH]; intros c HI; [exact HI|].
  simpl. apply IH. destruct a as [|v|i]; simpl.
  - apply inv_hotkey, HI.
  - apply inv_user_copy, HI.
  - apply inv_step, HI.
Qed.

Lemma thread_step_decreases p w :
  in_block p = true -> (forall r, p <> PExit r) ->
  steps_left (next_pc (fst (thread_step pyperclip gemini p w))) < steps_left p.
Proof.
  destruct p as [| |text|s|v|v|r|r]; try discriminate; intros _ Hx.
  - simpl. lia.
  - cbn -[strip String.eqb String.append decimal].
    destruct text as [|s|l|a|n|q|b]; try (simpl; lia).
    destruct (String.eqb (strip s) ""); [simpl; lia|].
    unfold bind, get_last_processed.
    destruct (str_eq s (_last_processed w)); simpl; lia.
  - unfold thread_step, bind.
    destruct (send_prompt_to_gemini gemini s None None None w) as [[v|e] w2];
      simpl; lia.
  - unfold thread_step. destruct (truthy v); [|simpl; lia].
    unfold bind. destruct (copy pyperclip v w) as [[[]|e] w2]; simpl; lia.
  - unfold thread_step, bind, set_last_processed, lift.
    destruct (len v); simpl; lia.
  - exfalso. exact (Hx r eq_refl).
Qed.

Lemma run_to_exit_S k p w :
  in_block p = true -> (forall r, p <> PExit r) ->
  run_to_exit pyperclip gemini (S k) p w
  = run_to_exit pyperclip gemini k (next_pc (fst (thread_step pyperclip gemini p w)))
      (snd (thread_step pyperclip gemini p w)).
Proof.
  intros Hb Hx.
  destruct p as [| |text|s|v|v|r|r]; try discriminate;
    try (exfalso; exact (Hx r eq_refl));
    cbn [run_to_exit]; destruct (thread_step pyperclip gemini _ w); reflexivity.
Qed.

(** Fuel beyond the actions left changes nothing. *)
Lemma run_to_exit_fuel n :
  forall m p w,
    in_block p = true -> steps_left p <= n -> steps_left p <= m ->
    run_to_exit pyperclip gemini n p w = run_to_exit pyperclip gemini m p w.
Proof.
  induction n as [|n IH]; intros m p w Hb Hn Hm.
  - destruct p; try discriminate; try (simpl in Hn; lia).
    destruct m; reflexivity.
  - assert (Hx : (exists r, p = PExit r) \/ forall r, p <> PExit r).
    { destruct p; try (right; discriminate). left. eexists. reflexivity. }
    destruct Hx as [[r ->]|Hx]; [destruct m; reflexivity|].
    pose proof (thread_step_in_block p w Hb) as Hb'.
    pose proof (thread_step_decreases p w Hb Hx) as Hd.
    destruct m as [|m].
    + destruct p; try discriminate; try (simpl in Hm; lia).
      exfalso. eapply Hx. reflexivity.
    + rewrite !run_to_exit_S by assumption.
      apply IH; [exact Hb' | lia | lia].
Qed.

Lemma run_to_exit_step p w :
  in_block p = true -> (forall r, p <> PExit r) ->
  run_to_exit pyperclip gemini 5 p w
  = run_to_exit pyperclip gemini 5 (next_pc (fst (thread_step pyperclip gemini p w)))
      (snd (thread_step pyperclip gemini p w)).
Proof.
  intros Hb Hx.
  assert (H5 : steps_left p <= 5) by (destruct p; simpl; lia).
  rewrite (run_to_exit_fuel 5 6 p w Hb H5) by lia.
  apply run_to_exit_S; assumption.
Qed.

Lemma serial_inside w0 c i :
  Inv c -> in_block (pcs c i) = true -> (forall r, pcs c i <> PExit r) ->
  settled pyperclip gemini c = runs pyperclip gemini (acquired c) w0 ->
  forall r w',
    thread_step pyperclip gemini (pcs c i) (shared c) = (r, w') ->
    let c' := {| shared := w'; lock := lock c; nthreads := nthreads c;
                 pcs := upd (pcs c) i (next_pc r);
                 trace := (i, op_of (pcs c i)) :: trace c |} in
    settled pyperclip gemini c' = runs pyperclip gemini (acquired c') w0.
Proof.
  intros HI Hb Hx Hser r w' Hstep c'.
  destruct (holder_in_block c i HI Hb) as [Hl _].
  destruct (op_of_in_block (pcs c i) Hb Hx) as [_ Hacq].
  assert (Ha : acquired c' = acquired c).
  { unfold acquired, c'. simpl. unfold is_acquire at 1. simpl.
    destruct (op_of (pcs c i)); try reflexivity. contradiction. }
  rewrite Ha, <- Hser. unfold settled, c'. cbn [lock pcs shared].
  rewrite Hl, upd_same. rewrite (run_to_exit_step (pcs c i) (shared c) Hb Hx).
  rewrite Hstep. reflexivity.
Qed.

(** The case of [step] for a thread inside the block, for [settled]. *)
Ltac inside_serial HI Hp Hser i w0 :=
  match goal with
  | |- settled _ _ (let (_, _) := thread_step ?l ?g ?p (shared ?c) in _) = _ =>
      let r := fresh "r" in
      let w' := fresh "w'" in
      let Hs := fresh "Hs" in
      let H := fresh "H" in
      destruct (thread_step l g p (shared c)) as [r w'] eqn:Hs;
      pose proof (serial_inside w0 c i HI) as H;
      rewrite Hp in H;
      apply H; [reflexivity | discriminate | exact Hser | exact Hs]
  end.

Lemma serial_step w0 i c :
  Inv c ->
  settled pyperclip gemini c = runs pyperclip gemini (acquired c) w0 ->
  settled pyperclip gemini (step pyperclip gemini i c)
  = runs pyperclip gemini (acquired (step pyperclip gemini i c)) w0.
Proof.
  intros HI Hser. unfold step.
  destruct (negb (Nat.ltb i (nthreads c))); [exact Hser|].
  destruct (pcs c i) as [| |text|s|v|v|r|r] eqn:Hp.
  - destruct (lock c) as [h|] eqn:Hl; [exact Hser|].
    unfold settled, acquired in *. rewrite Hl in Hser.
    cbn [lock pcs shared trace filter is_acquire snd List.length runs].
    rewrite upd_same, run_to_exit_process, Hser. reflexivity.
  - inside_serial HI Hp Hser i w0.
  - inside_serial HI Hp Hser i w0.
  - inside_serial HI Hp Hser i w0.
  - inside_serial HI Hp Hser i w0.
  - inside_serial HI Hp Hser i w0.
  - assert (Hb : in_block (pcs c i) = true) by (rewrite Hp; reflexivity).
    destruct (holder_in_block c i HI Hb) as [Hl _].
    unfold settled, acquired in *. rewrite Hl, Hp in Hser.
    exact Hser.
  - exact Hser.
Qed.

(** Without user copies the threads of an execution, however their
    actions are scheduled, act on the shared state as the runs that took
    the lock, one after the other. *)
Lemma exec_serial w0 sched :
  forall c,
    Inv c -> no_user_copy sched = true ->
    settled pyperclip gemini c = runs pyperclip gemini (acquired c) w0 ->
    settled pyperclip gemini (exec pyperclip gemini sched c)
    = runs pyperclip gemini (acquired (exec pyperclip gemini sched c)) w0.
Proof.
  induction sched as [|a sched IH]; intros c HI Hn Hser; [exact Hser|].
  simpl in Hn. apply andb_true_iff in Hn. destruct Hn as [Ha Hn].
  simpl. destruct a as [|v|i]; [| discriminate |].
  - apply IH; [apply inv_hotkey, HI | exact Hn | exact Hser].
  - apply IH; [apply inv_step, HI | exact Hn |].
    apply serial_step; assumption.
Qed.

End Threads.

Lemma rev_two_events {A} (pre mid post : list A) x y :
  rev (pre ++ x :: mid ++ y :: post) = rev post ++ y :: rev mid ++ x :: rev pre.
Proof.
  rewrite rev_app_distr. simpl. rewrite rev_app_distr. simpl.
  rewrite <- !app_assoc. reflexivity.
Qed.

(** C2: in every execution, however the threads are scheduled, at most
    one thread is inside the [with _lock:] block, and it is the one that
    holds the lock; when thread i reads the clipboard before another
    thread j does, i has released the lock in between and does nothing
    after the read of j, so its write (or no-op) is complete by then; and,
    the clipboard being left to the pipeline, the runs act on the shared
    state as if executed one after the other in the order they took the
    lock. *)
Theorem C2_runs_are_serialized :
  forall pyperclip gemini sched clip,
    let c := exec pyperclip gemini sched (initial_cstate clip) in
    (forall i j, in_block (pcs c i) = true -> in_block (pcs c j) = true ->
                 i = j)
    /\ (forall i, in_block (pcs c i) = true -> lock c = Some i)
    /\ (forall i j pre mid post,
          i <> j ->
          history c = pre ++ (i, ClipRead) :: mid ++ (j, ClipRead) :: post ->
          In (i, Release) mid /\ forall o, ~ In (i, o) post)
    /\ (no_user_copy sched = true ->
        settled pyperclip gemini c = runs pyperclip gemini (acquired c) (initial_world clip)).
Proof.
  intros pyperclip gemini sched clip c.
  assert (HI : Inv c) by apply inv_exec, inv_initial.
  split; [|split; [|split]].
  - intros i j Hi Hj.
    destruct (holder_in_block c i HI Hi) as [_ Hothers].
    destruct (Nat.eq_dec j i) as [->|Hne]; [reflexivity|].
    rewrite (Hothers j Hne) in Hj. discriminate.
  - intros i Hi. apply (holder_in_block c i HI Hi).
  - intros i j pre mid post Hij Hh.
    assert (Ht : trace c = rev post ++ (j, ClipRead)
                             :: rev mid ++ (i, ClipRead) :: rev pre).
    { rewrite <- (rev_involutive (trace c)). fold (history c). rewrite Hh.
      apply rev_two_events. }
    destruct (inv_order c HI _ _ _ i j _ _ Hij Ht) as [Hrel Hpost].
    split.
    + apply in_app_or in Hrel. destruct Hrel as [Hmid|[Hhd|[]]].
      * apply in_rev. exact Hmid.
      * discriminate Hhd.
    + intros o Hin. apply (Hpost o). apply in_rev in Hin. exact Hin.
  - intros Hn. apply exec_serial; [apply inv_initial | exact Hn | reflexivity].
Qed.

Lemma C2_runs_are_serialized_witness :
  let c := exec pyperclip_strict svc_bonjour sched_overlap
             (initial_cstate (VStr "Translate to French: hello")) in
  history c
  = [(0, Acquire)] ++ (0, ClipRead)
      :: [(0, CheckLast); (0, RemoteCall); (0, ClipWrite); (0, SetLast);
          (0, Release); (1, Acquire)] ++ (1, ClipRead)
      :: [(1, CheckLast); (1, Release)]
  /\ In (0, Release)
        [(0, CheckLast); (0, RemoteCall); (0, ClipWrite); (0, SetLast);
         (0, Release); (1, Acquire)]
  /\ settled pyperclip_strict svc_bonjour c
     = runs pyperclip_strict svc_bonjour 2 (initial_world (VStr "Translate to French: hello")).
Proof.
  intros c.
  destruct (C2_runs_are_serialized pyperclip_strict svc_bonjour sched_overlap
              (VStr "Translate to French: hello")) as (_ & _ & Hord & Hser).
  split; [reflexivity|]. split.
  - apply (Hord 0 1 [(0, Acquire)]
             [(0, CheckLast); (0, RemoteCall); (0, ClipWrite); (0, SetLast);
              (0, Release); (1, Acquire)]
             [(1, CheckLast); (1, Release)]); [discriminate | reflexivity].
  - apply Hser. reflexivity.
Defined.

(** ** The scenarios of the specification *)

(** Scenario 1: the prompt is replaced by the reply, and a second trigger
    on the reply sends nothing. *)
Example scenario_translate :
  let w1 := snd (process_clipboard pyperclip_strict svc_bonjour
                   (initial_world (VStr "Translate to French: hello"))) in
  let w2 := snd (process_clipboard pyperclip_strict svc_bonjour w1) in
  clipboard w1 = VStr "Bonjour"
  /\ List.length (requests w1) = 1
  /\ clipboard w2 = VStr "Bonjour"
  /\ List.length (requests w2) = 1.
Proof. repeat split. Qed.

(** Scenario 2: an empty clipboard stays empty. *)
Example scenario_empty :
  let w := snd (process_clipboard pyperclip_strict svc_bonjour (initial_world (VStr ""))) in
  clipboard w = VStr "" /\ requests w = [].
Proof. split; reflexivity. Qed.

(** Scenario 3: on a timeout the clipboard and the last processed text
    stay, and the failure is logged with the exception. *)
Example scenario_timeout :
  let r := process_clipboard pyperclip_strict svc_timeout (initial_world (VStr "hello")) in
  fst r = Ret tt
  /\ clipboard (snd r) = VStr "hello"
  /\ _last_processed (snd r) = VNone
  /\ map (fun l => (level l, exc_info l)) (log (snd r))
     = [(ERROR, None); (ERROR, Some TimeoutError); (INFO, None); (INFO, None)].
Proof. repeat split. Qed.

(** An exception outside the [Exception] hierarchy is not caught by the
    client, and leaves the run through the [with] block. *)
Example keyboard_interrupt_propagates :
  let svc := fun (_ : nat) (_ : request) => Raise KeyboardInterrupt in
  fst (send_prompt_to_gemini svc "hello" None None None
         (initial_world (VStr "hello"))) = Raise KeyboardInterrupt
  /\ fst (process_clipboard pyperclip_strict svc (initial_world (VStr "hello")))
     = Raise KeyboardInterrupt.
Proof. split; reflexivity. Qed.

(** A reply that is a list: a [pyperclip] that refuses it raises and
    nothing is recorded; one that takes it writes its text, and
    [_last_processed] is the list itself. *)
Example list_reply_is_refused :
  let svc := fun (_ : nat) (_ : request) =>
               Ret (VObj [("text", Ret (VList [VStr "a"]))]) in
  let r := process_clipboard pyperclip_strict svc
             (initial_world (VStr "hello")) in
  fst r = Raise PyperclipException
  /\ clipboard (snd r) = VStr "hello" /\ _last_processed (snd r) = VNone.
Proof. repeat split. Qed.

Example list_reply_is_written :
  let svc := fun (_ : nat) (_ : request) =>
               Ret (VObj [("text", Ret (VList [VStr "a"]))]) in
  let r := process_clipboard pyperclip_lenient svc
             (initial_world (VStr "hello")) in
  fst r = Ret tt
  /\ clipboard (snd r) = VStr "['a']"
  /\ _last_processed (snd r) = VList [VStr "a"].
Proof. repeat split. Qed.

(** ** More on the extraction and the client *)

Lemma extract_raise_source resp e :
  extract_text_from_response resp = Raise e ->
  exists sh, access sh resp = Raise e.
Proof.
  unfold extract_text_from_response, try_except.
  destruct (direct_field resp) as [v|e1] eqn:H1; [discriminate|].
  destruct (is_Exception e1).
  2: { intros H. injection H as <-. exists DirectField. exact H1. }
  destruct (nested_candidate resp) as [v|e2] eqn:H2; [discriminate|].
  destruct (is_Exception e2).
  2: { intros H. injection H as <-. exists NestedCandidate. exact H2. }
  destruct (alternate_nested resp) as [v|e3] eqn:H3; [discriminate|].
  destruct (is_Exception e3); [discriminate|].
  intros H. injection H as <-. exists AlternateNested. exact H3.
Qed.

(** X1: when [extract_text_from_response] raises, the exception is outside
    the [Exception] hierarchy and comes from reading one of the three
    shapes: no [Exception] ever leaves the function. *)
Theorem X1_extract_raises_only_base :
  forall resp e,
    extract_text_from_response resp = Raise e ->
    is_Exception e = false /\ exists sh, access sh resp = Raise e.
Proof.
  intros resp e H. split.
  - exact (extract_never_raises_Exception resp e H).
  - exact (extract_raise_source resp e H).
Qed.

Lemma X1_extract_raises_only_base_witness :
  extract_text_from_response (VObj [("text", Raise SystemExit)])
  = Raise SystemExit
  /\ is_Exception SystemExit = false
  /\ exists sh, access sh (VObj [("text", Raise SystemExit)]) = Raise SystemExit.
Proof.
  split; [reflexivity|].
  apply (X1_extract_raises_only_base (VObj [("text", Raise SystemExit)])).
  reflexivity.
Defined.

(** X2: a response that is no object, or an object with none of the
    attributes [text], [candidates] and [parts], gives [None], not an
    error. *)
Theorem X2_extract_unknown_shape :
  forall resp,
    match resp with
    | VObj attrs =>
        lookup_attr "text" attrs = None
        /\ lookup_attr "candidates" attrs = None
        /\ lookup_attr "parts" attrs = None
    | _ => True
    end ->
    extract_text_from_response resp = Ret VNone.
Proof.
  intros resp H.
  unfold extract_text_from_response, direct_field, nested_candidate,
    alternate_nested, getattr.
  destruct resp as [|s|l|attrs|n|q|b]; try reflexivity.
  destruct H as (Ht & Hc & Hp). rewrite Ht, Hc, Hp. reflexivity.
Qed.

Lemma X2_extract_unknown_shape_witness :
  extract_text_from_response (VStr "Bonjour") = Ret VNone
  /\ extract_text_from_response (VObj [("prompt_feedback", Ret VNone)])
     = Ret VNone.
Proof.
  split.
  - apply (X2_extract_unknown_shape (VStr "Bonjour")). exact I.
  - apply (X2_extract_unknown_shape (VObj [("prompt_feedback", Ret VNone)])).
    repeat split.
Defined.

(** The client, outcome by outcome of the service. *)
Lemma send_prompt_eq gemini prompt model max_tokens temperature w :
  let req := client_request prompt model max_tokens temperature in
  let w1 := {| clipboard := clipboard w; _last_processed := _last_processed w;
               log := calling_record :: log w;
               requests := req :: requests w |} in
  send_prompt_to_gemini gemini prompt model max_tokens temperature w
  = match client_result (gemini (List.length (requests w)) req) with
    | Ret v =>
        match gemini (List.length (requests w)) req with
        | Ret _ => (Ret v, w1)
        | Raise e => (Ret v, logged (failure_record e) w1)
        end
    | Raise e => (Raise e, w1)
    end.
Proof.
  intros req w1.
  unfold send_prompt_to_gemini, try_exceptM, bind, logging_info, emit,
    generate_content, lift, ret, logging_exception, client_result.
  cbn [clipboard _last_processed log requests].
  fold (client_request prompt model max_tokens temperature). fold req.
  fold calling_record.
  destruct (gemini (List.length (requests w)) req) as [resp|e].
  - destruct (extract_text_from_response resp) as [v|e] eqn:Hx;
      [reflexivity|].
    rewrite (extract_never_raises_Exception resp e Hx). reflexivity.
  - destruct (is_Exception e); reflexivity.
Qed.

(** X3: whatever the service does, one call of the client sends exactly
    one request, built from the prompt and the options given (the
    defaults for the omitted ones), and leaves the clipboard and the last
    processed text alone. *)
Theorem X3_client_sends_one_request :
  forall gemini prompt model max_tokens temperature w,
    let w' := snd (send_prompt_to_gemini gemini prompt model max_tokens
                     temperature w) in
    requests w'
    = {| req_model := match model with
                      | Some m => m
                      | None => "gemini-2.0-flash-lite"
                      end;
         req_max_output_tokens := match max_tokens with
                                  | Some n => n
                                  | None => 800%Z
                                  end;
         req_temperature := match temperature with
                            | Some t => t
                            | None => 0.2%Q
                            end;
         req_prompt := prompt |} :: requests w
    /\ clipboard w' = clipboard w
    /\ _last_processed w' = _last_processed w.
Proof.
  intros gemini prompt model max_tokens temperature w w'. subst w'.
  rewrite send_prompt_eq.
  destruct (client_result _) as [v|e];
    [destruct (gemini _ _) as [r|e]|]; repeat split.
Qed.

(** X4: the client never raises an [Exception]: when it raises, the
    exception is outside that hierarchy, and it is the one that the
    service or the reading of the response raised. *)
Theorem X4_client_raises_only_base :
  forall gemini prompt model max_tokens temperature w e,
    fst (send_prompt_to_gemini gemini prompt model max_tokens temperature w)
    = Raise e ->
    is_Exception e = false
    /\ (gemini (List.length (requests w))
          (client_request prompt model max_tokens temperature) = Raise e
        \/ exists resp,
             gemini (List.length (requests w))
               (client_request prompt model max_tokens temperature) = Ret resp
             /\ extract_text_from_response resp = Raise e).
Proof.
  intros gemini prompt model max_tokens temperature w e.
  rewrite send_prompt_eq. unfold client_result.
  destruct (gemini _ _) as [resp|e0].
  - destruct (extract_text_from_response resp) as [v|e1] eqn:Hx;
      [discriminate|].
    pose proof (extract_never_raises_Exception resp e1 Hx) as Hb.
    rewrite Hb. simpl. intros H. injection H as <-.
    split; [exact Hb|]. right. exists resp. auto.
  - destruct (is_Exception e0) eqn:Hb; simpl; [discriminate|].
    intros H. injection H as <-. auto.
Qed.

Lemma X4_client_raises_only_base_witness :
  fst (send_prompt_to_gemini svc_interrupt "hello" None None None
         (initial_world (VStr "hello"))) = Raise KeyboardInterrupt
  /\ is_Exception KeyboardInterrupt = false.
Proof.
  split; [reflexivity|].
  apply (X4_client_raises_only_base svc_interrupt "hello" None None None
           (initial_world (VStr "hello")) KeyboardInterrupt).
  reflexivity.
Defined.

(** X5: when the service raises an [Exception], the client returns
    [None] and has logged two records: the call, and the failure at level
    ERROR with the exception raised. *)
Theorem X5_client_logs_failure :
  forall gemini prompt model max_tokens temperature w e,
    gemini (List.length (requests w))
      (client_request prompt model max_tokens temperature) = Raise e ->
    is_Exception e = true ->
    let r := send_prompt_to_gemini gemini prompt model max_tokens
               temperature w in
    fst r = Ret VNone
    /\ log (snd r)
       = {| level := ERROR; message := "Google Gemini request failed";
            exc_info := Some e |}
           :: {| level := INFO; message := "Calling Google Gemini API...";
                 exc_info := None |} :: log w.
Proof.
  intros gemini prompt model max_tokens temperature w e Ho He r. subst r.
  rewrite send_prompt_eq, Ho. simpl. rewrite He. split; reflexivity.
Qed.

Lemma X5_client_logs_failure_witness :
  let r := send_prompt_to_gemini svc_timeout "hello" None None None
             (initial_world (VStr "hello")) in
  fst r = Ret VNone
  /\ map exc_info (log (snd r)) = [Some TimeoutError; None].
Proof.
  intros r.
  destruct (X5_client_logs_failure svc_timeout "hello" None None None
              (initial_world (VStr "hello")) TimeoutError) as [H1 H2];
    [reflexivity | reflexivity |].
  split; [exact H1|]. subst r. rewrite H2. reflexivity.
Defined.

(** ** More on one run *)

Lemma client_result_raise o e :
  client_result o = Raise e -> is_Exception e = false.
Proof.
  unfold client_result. destruct o as [resp|e0].
  - destruct (extract_text_from_response resp) as [v|e1] eqn:Hx;
      [discriminate|].
    pose proof (extract_never_raises_Exception resp e1 Hx) as Hb.
    rewrite Hb. intros H. injection H as <-. exact Hb.
  - destruct (is_Exception e0) eqn:Hb; [discriminate|].
    intros H. injection H as <-. exact Hb.
Qed.

Lemma handle_requests pyperclip v w :
  requests (snd (handle_response pyperclip v w)) = requests w.
Proof.
  destruct (truthy v) eqn:Ht.
  - destruct (copy_ok pyperclip v) eqn:Hc.
    + rewrite (handle_accepted pyperclip v w Ht Hc). cbv zeta.
      destruct (len v); reflexivity.
    + rewrite (handle_refused pyperclip v w Ht Hc). reflexivity.
  - rewrite (handle_falsy pyperclip v w Ht). reflexivity.
Qed.

Lemma handle_log pyperclip v w :
  exists new, log (snd (handle_response pyperclip v w)) = new ++ log w.
Proof.
  destruct (truthy v) eqn:Ht.
  - destruct (copy_ok pyperclip v) eqn:Hc.
    + rewrite (handle_accepted pyperclip v w Ht Hc). cbv zeta.
      destruct (len v); [eexists [_] | exists []]; reflexivity.
    + rewrite (handle_refused pyperclip v w Ht Hc). exists []. reflexivity.
  - rewrite (handle_falsy pyperclip v w Ht). eexists [_]. reflexivity.
Qed.



(** X7: a run sends one request when it reaches the call, and it is the
    clipboard text as it stands, white space included, with the default
    options; on every other path it sends none. *)
Theorem X7_run_requests :
  forall pyperclip gemini w,
    (forall text, reaches_call w text ->
       requests (snd (process_clipboard pyperclip gemini w))
       = default_request text :: requests w)
    /\ ((forall text, ~ reaches_call w text) ->
        requests (snd (process_clipboard pyperclip gemini w)) = requests w).
Proof.
  intros pyperclip gemini w. split.
  - intros text Hreach. rewrite (run_call_cases pyperclip gemini w text Hreach).
    destruct (client_world gemini w text) as (_ & _ & Hreq).
    destruct (client_result (service_outcome gemini w text)) as [v|e].
    + rewrite handle_requests. exact Hreq.
    + exact Hreq.
  - intros Hno.
    destruct (run_paths w) as [Hn | [(t & Ht & Hs & He) | (t & Hreach)]].
    + rewrite (run_nothing_to_do pyperclip gemini w Hn). reflexivity.
    + rewrite (run_duplicate pyperclip gemini w t Ht Hs He). reflexivity.
    + exfalso. exact (Hno t Hreach).
Qed.

Lemma X7_run_requests_witness :
  requests (snd (process_clipboard pyperclip_strict svc_timeout (initial_world (VStr " hi "))))
  = [default_request " hi "]
  /\ requests (snd (process_clipboard pyperclip_strict svc_timeout (initial_world VNone))) = [].
Proof.
  split.
  - apply (proj1 (X7_run_requests pyperclip_strict svc_timeout (initial_world (VStr " hi ")))).
    repeat split.
  - apply (proj2 (X7_run_requests pyperclip_strict svc_timeout (initial_world VNone))).
    intros text (H & _). discriminate H.
Defined.

(** X8: every run adds at least one record to the log and keeps the
    records that were there. *)
Theorem X8_run_logs :
  forall pyperclip gemini w,
    exists new,
      new <> []
      /\ log (snd (process_clipboard pyperclip gemini w)) = new ++ log w.
Proof.
  intros pyperclip gemini w.
  destruct (run_paths w) as [Hn | [(t & Ht & Hs & He) | (t & Hreach)]].
  - rewrite (run_nothing_to_do pyperclip gemini w Hn). eexists [_].
    split; [discriminate | reflexivity].
  - rewrite (run_duplicate pyperclip gemini w t Ht Hs He). eexists [_].
    split; [discriminate | reflexivity].
  - rewrite (run_call pyperclip gemini w t Hreach). unfold bind.
    rewrite send_prompt_eq.
    set (w1 := {| clipboard := _; _last_processed := _; log := _;
                  requests := _ |}).
    assert (Hw1 : exists l, l <> [] /\ log w1 = l ++ log w).
    { eexists [_; _]. split; [discriminate | reflexivity]. }
    destruct Hw1 as (l & Hl & Hlog). clearbody w1.
    destruct (client_result _) as [v|e].
    + destruct (gemini _ _) as [resp|e0].
      * destruct (handle_log pyperclip v w1) as [new Hnew].
        exists (new ++ l). split.
        -- destruct new; [exact Hl | discriminate].
        -- rewrite Hnew, Hlog, app_assoc. reflexivity.
      * destruct (handle_log pyperclip v (logged (failure_record e0) w1)) as [new Hnew].
        exists (new ++ failure_record e0 :: l). split.
        -- destruct new; discriminate.
        -- rewrite Hnew. simpl. rewrite Hlog, <- app_assoc. reflexivity.
    + exists l. split; [exact Hl | exact Hlog].
Qed.

(** The state after a run whose call succeeds with a non-empty text. *)
Lemma run_success pyperclip gemini w text resp R :
  reaches_call w text ->
  service_outcome gemini w text = Ret resp ->
  extract_text_from_response resp = Ret (VStr R) ->
  R <> "" ->
  clipboard (snd (process_clipboard pyperclip gemini w)) = VStr R
  /\ _last_processed (snd (process_clipboard pyperclip gemini w)) = VStr R.
Proof.
  intros Hreach Ho He HR. rewrite (run_call_cases pyperclip gemini w text Hreach).
  rewrite Ho. simpl. rewrite He, (handle_text pyperclip R _ HR). auto.
Qed.

(** A run on the text that was processed last. *)
Lemma run_repeat pyperclip gemini w text :
  clipboard w = VStr text -> _last_processed w = VStr text ->
  exists r, process_clipboard pyperclip gemini w = (Ret tt, logged r w).
Proof.
  intros Hc Hl. destruct (all_space text) eqn:Hs.
  - eexists. apply run_nothing_to_do. rewrite Hc. exact Hs.
  - eexists. apply (run_duplicate pyperclip gemini w text Hc Hs).
    rewrite Hl. apply str_eq_refl.
Qed.

(** A run whose call gives no usable reply keeps the clipboard and the
    last processed text. *)
Lemma run_failure pyperclip gemini w text :
  reaches_call w text ->
  no_usable_reply (service_outcome gemini w text) = true ->
  clipboard (snd (process_clipboard pyperclip gemini w)) = clipboard w
  /\ _last_processed (snd (process_clipboard pyperclip gemini w)) = _last_processed w.
Proof.
  intros Hreach Hfail. rewrite (run_call_cases pyperclip gemini w text Hreach).
  destruct (client_world gemini w text) as (Hcl & Hla & _).
  unfold no_usable_reply in Hfail. unfold client_result.
  destruct (service_outcome gemini w text) as [resp|e].
  - destruct (extract_text_from_response resp) as [v|e] eqn:Hx.
    + apply negb_true_iff in Hfail. rewrite (handle_falsy pyperclip v _ Hfail). auto.
    + rewrite (extract_never_raises_Exception resp e Hx). auto.
  - destruct (is_Exception e); [rewrite handle_falsy by reflexivity|]; auto.
Qed.

(** X9: after a run that replaced the clipboard by a reply, a second run
    on the untouched clipboard is a no-op whatever the service would
    answer: it returns, sends no request and leaves the reply on the
    clipboard. *)
Theorem X9_run_after_success_is_noop :
  forall pyperclip gemini gemini' w text resp R,
    reaches_call w text ->
    service_outcome gemini w text = Ret resp ->
    extract_text_from_response resp = Ret (VStr R) ->
    R <> "" ->
    let w1 := snd (process_clipboard pyperclip gemini w) in
    fst (process_clipboard pyperclip gemini' w1) = Ret tt
    /\ clipboard (snd (process_clipboard pyperclip gemini' w1)) = VStr R
    /\ _last_processed (snd (process_clipboard pyperclip gemini' w1)) = VStr R
    /\ requests (snd (process_clipboard pyperclip gemini' w1)) = requests w1.
Proof.
  intros pyperclip gemini gemini' w text resp R Hreach Ho He HR w1.
  destruct (run_success pyperclip gemini w text resp R Hreach Ho He HR) as [Hc Hl].
  fold w1 in Hc, Hl.
  destruct (run_repeat pyperclip gemini' w1 R Hc Hl) as [r Hr]. rewrite Hr.
  simpl. auto.
Qed.

Lemma X9_run_after_success_is_noop_witness :
  let w1 := snd (process_clipboard pyperclip_strict svc_bonjour
                   (initial_world (VStr "Translate to French: hello"))) in
  fst (process_clipboard pyperclip_strict svc_timeout w1) = Ret tt
  /\ clipboard (snd (process_clipboard pyperclip_strict svc_timeout w1)) = VStr "Bonjour"
  /\ _last_processed (snd (process_clipboard pyperclip_strict svc_timeout w1)) = VStr "Bonjour"
  /\ requests (snd (process_clipboard pyperclip_strict svc_timeout w1)) = requests w1.
Proof.
  apply (X9_run_after_success_is_noop pyperclip_strict svc_bonjour svc_timeout
           (initial_world (VStr "Translate to French: hello"))
           "Translate to French: hello"
           (VObj [("text", Ret (VStr "Bonjour"))]) "Bonjour").
  - repeat split.
  - reflexivity.
  - reflexivity.
  - discriminate.
Defined.

(** X10: a failed call can be retried: after a run whose call gave no
    usable reply, the next run on the same clipboard reaches the call
    again and sends the same request a second time. *)
Theorem X10_failed_run_can_be_retried :
  forall pyperclip gemini gemini' w text,
    reaches_call w text ->
    no_usable_reply (service_outcome gemini w text) = true ->
    let w1 := snd (process_clipboard pyperclip gemini w) in
    reaches_call w1 text
    /\ requests (snd (process_clipboard pyperclip gemini' w1))
       = default_request text :: default_request text :: requests w.
Proof.
  intros pyperclip gemini gemini' w text Hreach Hfail w1.
  destruct (run_failure pyperclip gemini w text Hreach Hfail) as [Hc Hl].
  fold w1 in Hc, Hl.
  assert (Hreach1 : reaches_call w1 text).
  { destruct Hreach as (H1 & H2 & H3). unfold reaches_call.
    rewrite Hc, Hl. auto. }
  split; [exact Hreach1|].
  rewrite (run_call_cases pyperclip gemini' w1 text Hreach1).
  destruct (client_world gemini' w1 text) as (_ & _ & Hreq1).
  assert (Hreq : requests w1 = default_request text :: requests w).
  { unfold w1. rewrite (run_call_cases pyperclip gemini w text Hreach).
    destruct (client_world gemini w text) as (_ & _ & Hreq).
    destruct (client_result (service_outcome gemini w text)) as [v|e].
    - rewrite handle_requests. exact Hreq.
    - exact Hreq. }
  destruct (client_result (service_outcome gemini' w1 text)) as [v|e].
  - rewrite handle_requests, Hreq1, Hreq. reflexivity.
  - simpl. rewrite Hreq1, Hreq. reflexivity.
Qed.

Lemma X10_failed_run_can_be_retried_witness :
  let w1 := snd (process_clipboard pyperclip_strict svc_timeout (initial_world (VStr "hello"))) in
  reaches_call w1 "hello"
  /\ requests (snd (process_clipboard pyperclip_strict svc_bonjour w1))
     = [default_request "hello"; default_request "hello"].
Proof.
  apply (X10_failed_run_can_be_retried pyperclip_strict svc_timeout svc_bonjour
           (initial_world (VStr "hello")) "hello").
  - repeat split.
  - reflexivity.
Defined.

(** X11: the deduplication is on the reply, not on the prompt: when the
    reply differs from the prompt and the user puts the same prompt on the
    clipboard again, the next run reaches the call again. *)
Theorem X11_same_prompt_is_sent_again :
  forall pyperclip gemini w text resp R,
    reaches_call w text ->
    service_outcome gemini w text = Ret resp ->
    extract_text_from_response resp = Ret (VStr R) ->
    R <> "" -> R <> text ->
    reaches_call
      (set_clipboard (VStr text) (snd (process_clipboard pyperclip gemini w))) text.
Proof.
  intros pyperclip gemini w text resp R Hreach Ho He HR Hne.
  destruct (run_success pyperclip gemini w text resp R Hreach Ho He HR) as [_ Hl].
  destruct Hreach as (_ & Hs & _).
  unfold reaches_call, set_clipboard. simpl. rewrite Hl. simpl.
  repeat split; [exact Hs|]. apply String.eqb_neq. congruence.
Qed.

Lemma X11_same_prompt_is_sent_again_witness :
  reaches_call
    (set_clipboard (VStr "Translate to French: hello")
       (snd (process_clipboard pyperclip_strict svc_bonjour
               (initial_world (VStr "Translate to French: hello")))))
    "Translate to French: hello".
Proof.
  apply (X11_same_prompt_is_sent_again pyperclip_strict svc_bonjour
           (initial_world (VStr "Translate to French: hello"))
           "Translate to French: hello"
           (VObj [("text", Ret (VStr "Bonjour"))]) "Bonjour").
  - repeat split.
  - reflexivity.
  - reflexivity.
  - discriminate.
  - discriminate.
Defined.

(** X12: a run keeps the shape of the last processed text: when it is
    [None] or a value that is true before the run, it is so after it; the
    empty text, which the clipboard check lets no run send, is never
    recorded. *)
Theorem X12_run_keeps_last_ok :
  forall pyperclip gemini w,
    last_ok w = true ->
    last_ok (snd (process_clipboard pyperclip gemini w)) = true.
Proof.
  intros pyperclip gemini w Hok.
  destruct (run_paths w) as [Hn | [(t & Ht & Hs & He) | (t & Hreach)]].
  - rewrite (run_nothing_to_do pyperclip gemini w Hn). exact Hok.
  - rewrite (run_duplicate pyperclip gemini w t Ht Hs He). exact Hok.
  - pose proof (run_written pyperclip gemini w t Hreach) as Hrun.
    cbv zeta in Hrun. unfold last_ok in *.
    destruct (reply_of (service_outcome gemini w t)) as [v|].
    + destruct (truthy v) eqn:Hv; cbn [andb] in Hrun.
      * destruct (copy_ok pyperclip v); destruct Hrun as [Hl _]; rewrite Hl;
          [|exact Hok].
        destruct v; try exact Hv. discriminate Hv.
      * destruct Hrun as [Hl _]. rewrite Hl. exact Hok.
    + destruct Hrun as [Hl _]. rewrite Hl. exact Hok.
Qed.

Lemma X12_run_keeps_last_ok_witness :
  last_ok (snd (process_clipboard pyperclip_strict svc_bonjour
                  (initial_world (VStr "hello")))) = true
  /\ last_ok (snd (process_clipboard pyperclip_lenient svc_list
                     (initial_world (VStr "hello")))) = true.
Proof.
  split.
  - apply (X12_run_keeps_last_ok pyperclip_strict svc_bonjour (initial_world (VStr "hello"))).
    reflexivity.
  - apply (X12_run_keeps_last_ok pyperclip_lenient svc_list
             (initial_world (VStr "hello"))).
    reflexivity.
Defined.

(** ** More on the threads *)

Lemma step_has_shape pyperclip gemini i c : step_shape pyperclip gemini i c (step pyperclip gemini i c).
Proof.
  unfold step. destruct (Nat.ltb i (nthreads c)) eqn:Hlt; cbn [negb];
    [|apply shape_same; reflexivity].
  apply Nat.ltb_lt in Hlt.
  destruct (pcs c i) as [| |text|s|v|v|r|r] eqn:Hp; cbv beta iota.
  - destruct (lock c) eqn:Hl; [apply shape_same; reflexivity|].
    apply shape_acquire; auto.
  - apply shape_inside;
      [exact Hlt | rewrite Hp; reflexivity | rewrite Hp; discriminate |].
    rewrite Hp. destruct (thread_step pyperclip gemini PLocked (shared c)). reflexivity.
  - apply shape_inside;
      [exact Hlt | rewrite Hp; reflexivity | rewrite Hp; discriminate |].
    rewrite Hp. destruct (thread_step pyperclip gemini (PText text) (shared c)).
    reflexivity.
  - apply shape_inside;
      [exact Hlt | rewrite Hp; reflexivity | rewrite Hp; discriminate |].
    rewrite Hp. destruct (thread_step pyperclip gemini (PCall s) (shared c)).
    reflexivity.
  - apply shape_inside;
      [exact Hlt | rewrite Hp; reflexivity | rewrite Hp; discriminate |].
    rewrite Hp. destruct (thread_step pyperclip gemini (PReply v) (shared c)).
    reflexivity.
  - apply shape_inside;
      [exact Hlt | rewrite Hp; reflexivity | rewrite Hp; discriminate |].
    rewrite Hp. destruct (thread_step pyperclip gemini (PCopied v) (shared c)).
    reflexivity.
  - apply (shape_release pyperclip gemini i c _ r); auto.
  - apply shape_same; reflexivity.
Qed.

Section Progress.

Variable pyperclip : clipboard_lib.
Variable gemini : nat -> request -> result pyval.

Lemma born_initial clip : born (initial_cstate clip).
Proof. intros i _. reflexivity. Qed.

Lemma born_step i c : born c -> born (step pyperclip gemini i c).
Proof.
  intros Hb.
  destruct (step_has_shape pyperclip gemini i c) as [-> | Hi _ _ -> | Hi _ _ -> | r Hi _ ->];
    [exact Hb | | |];
    intros k Hk; simpl in *; rewrite upd_other by lia; apply Hb, Hk.
Qed.

Lemma born_exec sched : forall c, born c -> born (exec pyperclip gemini sched c).
Proof.
  induction sched as [|a sched IH]; intros c Hb; [exact Hb|].
  simpl. apply IH. destruct a as [|v|i]; simpl.
  - intros k Hk. simpl in Hk. apply Hb. lia.
  - exact Hb.
  - apply born_step, Hb.
Qed.

Lemma step_done h c r : pcs c h = PDone r -> step pyperclip gemini h c = c.
Proof.
  intros Hp. unfold step. destruct (negb (Nat.ltb h (nthreads c)));
    [reflexivity|]. rewrite Hp. reflexivity.
Qed.

Lemma exec_repeat_done h r m :
  forall c, pcs c h = PDone r -> exec pyperclip gemini (repeat (Run h) m) c = c.
Proof.
  induction m as [|m IH]; intros c Hp; [reflexivity|].
  simpl. rewrite (step_done h c r Hp). apply IH, Hp.
Qed.

Lemma step_release_eq h c r :
  h < nthreads c -> pcs c h = PExit r ->
  step pyperclip gemini h c
  = {| shared := shared c; lock := None; nthreads := nthreads c;
       pcs := upd (pcs c) h (PDone r); trace := (h, Release) :: trace c |}.
Proof.
  intros Hlt Hp. unfold step. apply Nat.ltb_lt in Hlt. rewrite Hlt, Hp.
  reflexivity.
Qed.

Lemma step_inside_eq h c :
  h < nthreads c -> in_block (pcs c h) = true ->
  (forall r, pcs c h <> PExit r) ->
  step pyperclip gemini h c
  = {| shared := snd (thread_step pyperclip gemini (pcs c h) (shared c));
       lock := lock c; nthreads := nthreads c;
       pcs := upd (pcs c) h
                (next_pc (fst (thread_step pyperclip gemini (pcs c h) (shared c))));
       trace := (h, op_of (pcs c h)) :: trace c |}.
Proof.
  intros Hlt Hb Hx. unfold step. apply Nat.ltb_lt in Hlt. rewrite Hlt.
  cbn [negb].
  destruct (pcs c h) as [| |text|s|v|v|r|r] eqn:Hp; try discriminate;
    try (exfalso; exact (Hx r eq_refl)); cbv beta iota;
    destruct (thread_step pyperclip gemini _ (shared c)); reflexivity.
Qed.

Lemma exit_or_not p :
  (exists r, p = PExit r) \/ forall r, p <> PExit r.
Proof.
  destruct p; try (right; discriminate). left. eexists. reflexivity.
Qed.

Lemma exec_repeat_S h n c :
  exec pyperclip gemini (repeat (Run h) (S n)) c
  = exec pyperclip gemini (repeat (Run h) n) (step pyperclip gemini h c).
Proof. reflexivity. Qed.

(** The thread inside the block, scheduled alone, finishes its run and
    releases the lock. *)
Lemma finish_holder k :
  forall c h,
    h < nthreads c -> in_block (pcs c h) = true ->
    steps_left (pcs c h) <= k ->
    let c' := exec pyperclip gemini (repeat (Run h) (S k)) c in
    lock c' = None
    /\ pcs c' h = PDone (fst (run_to_exit pyperclip gemini 5 (pcs c h) (shared c)))
    /\ shared c' = snd (run_to_exit pyperclip gemini 5 (pcs c h) (shared c)).
Proof.
  induction k as [|k IH]; intros c h Hlt Hb Hk c'; subst c';
    rewrite exec_repeat_S;
    destruct (exit_or_not (pcs c h)) as [[r Hp]|Hx].
  - rewrite (step_release_eq h c r Hlt Hp), Hp.
    cbn [repeat exec fold_left lock pcs shared run_to_exit fst snd].
    rewrite upd_same. auto.
  - pose proof (thread_step_decreases pyperclip gemini (pcs c h) (shared c) Hb Hx). lia.
  - rewrite (step_release_eq h c r Hlt Hp).
    rewrite (exec_repeat_done h r (S k))
      by (cbn [pcs]; apply upd_same).
    rewrite Hp. cbn [lock pcs shared run_to_exit fst snd].
    rewrite upd_same. auto.
  - pose proof (thread_step_decreases pyperclip gemini (pcs c h) (shared c) Hb Hx) as Hd.
    pose proof (thread_step_in_block pyperclip gemini (pcs c h) (shared c) Hb) as Hb'.
    rewrite (run_to_exit_step pyperclip gemini (pcs c h) (shared c) Hb Hx).
    rewrite (step_inside_eq h c Hlt Hb Hx).
    set (c1 := {| shared := _; lock := _; nthreads := _; pcs := _;
                  trace := _ |}).
    assert (Hp1 : pcs c1 h
                  = next_pc (fst (thread_step pyperclip gemini (pcs c h) (shared c))))
      by (unfold c1; cbn [pcs]; apply upd_same).
    assert (Hlt1 : h < nthreads c1) by exact Hlt.
    assert (Hb1 : in_block (pcs c1 h) = true) by (rewrite Hp1; exact Hb').
    assert (Hk1 : steps_left (pcs c1 h) <= k) by (rewrite Hp1; lia).
    assert (Hw1 : shared c1 = snd (thread_step pyperclip gemini (pcs c h) (shared c)))
      by reflexivity.
    clearbody c1.
    destruct (IH c1 h Hlt1 Hb1 Hk1) as (H1 & H2 & H3).
    rewrite Hp1, Hw1 in H2, H3. auto.
Qed.

End Progress.

(** X13: the lock is always given back: in any state of any execution,
    when thread h holds the lock, six actions of h end its run and free
    the lock, whatever the service answers or raises. *)
Theorem X13_lock_is_released :
  forall pyperclip gemini sched clip h,
    let c := exec pyperclip gemini sched (initial_cstate clip) in
    lock c = Some h ->
    let c' := exec pyperclip gemini (repeat (Run h) 6) c in
    lock c' = None /\ exists r, pcs c' h = PDone r.
Proof.
  intros pyperclip gemini sched clip h c Hl c'.
  assert (HI : Inv c) by apply inv_exec, inv_initial.
  assert (HB : born c) by apply born_exec, born_initial.
  destruct (inv_held c HI h Hl) as [Hb _].
  assert (Hlt : h < nthreads c).
  { destruct (Nat.lt_ge_cases h (nthreads c)) as [H|H]; [exact H|].
    rewrite (HB h H) in Hb. discriminate. }
  assert (H5 : steps_left (pcs c h) <= 5) by (destruct (pcs c h); simpl; lia).
  destruct (finish_holder pyperclip gemini 5 c h Hlt Hb H5) as (H1 & H2 & _).
  split; [exact H1|]. eexists. exact H2.
Qed.

Lemma X13_lock_is_released_witness :
  let c := exec pyperclip_strict svc_interrupt sched_midway (initial_cstate (VStr "hello")) in
  lock c = Some 0
  /\ lock (exec pyperclip_strict svc_interrupt (repeat (Run 0) 6) c) = None
  /\ pcs (exec pyperclip_strict svc_interrupt (repeat (Run 0) 6) c) 0
     = PDone (Raise KeyboardInterrupt).
Proof.
  intros c. split; [reflexivity|].
  destruct (X13_lock_is_released pyperclip_strict svc_interrupt sched_midway (VStr "hello") 0)
    as [H _]; [reflexivity|].
  split; [exact H | reflexivity].
Defined.

(** X14: a thread that takes the free lock and is scheduled alone does
    what [process_clipboard] does to the shared state, ends with its
    result (a raised exception included), and has then freed the lock. *)
Theorem X14_thread_alone_runs_pipeline :
  forall pyperclip gemini c i,
    i < nthreads c -> pcs c i = PStart -> lock c = None ->
    let c' := exec pyperclip gemini (repeat (Run i) 7) c in
    shared c' = snd (process_clipboard pyperclip gemini (shared c))
    /\ pcs c' i = PDone (fst (process_clipboard pyperclip gemini (shared c)))
    /\ lock c' = None.
Proof.
  intros pyperclip gemini c i Hlt Hp Hl c'. subst c'.
  rewrite exec_repeat_S.
  assert (Hs : step pyperclip gemini i c
               = {| shared := shared c; lock := Some i;
                    nthreads := nthreads c; pcs := upd (pcs c) i PLocked;
                    trace := (i, Acquire) :: trace c |}).
  { unfold step. apply Nat.ltb_lt in Hlt. rewrite Hlt, Hp, Hl. reflexivity. }
  rewrite Hs.
  set (c1 := {| shared := _; lock := _; nthreads := _; pcs := _;
                trace := _ |}).
  assert (Hp1 : pcs c1 i = PLocked) by (unfold c1; cbn [pcs]; apply upd_same).
  assert (Hlt1 : i < nthreads c1) by exact Hlt.
  assert (Hb1 : in_block (pcs c1 i) = true) by (rewrite Hp1; reflexivity).
  assert (Hk1 : steps_left (pcs c1 i) <= 5) by (rewrite Hp1; apply Nat.le_refl).
  assert (Hw1 : shared c1 = shared c) by reflexivity.
  clearbody c1.
  destruct (finish_holder pyperclip gemini 5 c1 i Hlt1 Hb1 Hk1) as (H1 & H2 & H3).
  rewrite Hp1, Hw1, run_to_exit_process in H2, H3. auto.
Qed.

Lemma X14_thread_alone_runs_pipeline_witness :
  let c := hotkey_callback (initial_cstate (VStr "hello")) in
  clipboard (shared (exec pyperclip_strict svc_bonjour (repeat (Run 0) 7) c)) = VStr "Bonjour"
  /\ pcs (exec pyperclip_strict svc_bonjour (repeat (Run 0) 7) c) 0 = PDone (Ret tt)
  /\ lock (exec pyperclip_strict svc_bonjour (repeat (Run 0) 7) c) = None.
Proof.
  intros c.
  destruct (X14_thread_alone_runs_pipeline pyperclip_strict svc_bonjour c 0)
    as (H1 & H2 & H3); [simpl; lia | reflexivity | reflexivity |].
  split; [rewrite H1; reflexivity|]. split; [exact H2 | exact H3].
Defined.

Section Counting.

Variable pyperclip : clipboard_lib.
Variable gemini : nat -> request -> result pyval.

Lemma nthreads_exec sched :
  forall c, nthreads (exec pyperclip gemini sched c) = nthreads c + hotkeys sched.
Proof.
  induction sched as [|a sched IH]; intros c;
    [unfold hotkeys; simpl; lia|].
  change (exec pyperclip gemini (a :: sched) c) with (exec pyperclip gemini sched (act pyperclip gemini a c)).
  rewrite IH. destruct a as [|v|i]; unfold hotkeys; simpl; try lia.
  destruct (step_has_shape pyperclip gemini i c) as [-> | _ _ _ -> | _ _ _ -> | r _ _ ->];
    simpl; lia.
Qed.

Lemma acquirer_has_event i c :
  In i (acquirers c) -> In (i, Acquire) (trace c).
Proof.
  unfold acquirers. intros H. apply in_map_iff in H.
  destruct H as ([j o] & Hj & Hin). simpl in Hj. subst j.
  apply filter_In in Hin. destruct Hin as [Hin Ha].
  unfold is_acquire in Ha. simpl in Ha. destruct o; try discriminate.
  exact Hin.
Qed.

(** No thread takes the lock twice, and the threads that took it were
    started. *)
Lemma acquirers_step i c :
  Inv c ->
  NoDup (acquirers c) /\ (forall k, In k (acquirers c) -> k < nthreads c) ->
  NoDup (acquirers (step pyperclip gemini i c))
  /\ (forall k, In k (acquirers (step pyperclip gemini i c)) ->
                k < nthreads (step pyperclip gemini i c)).
Proof.
  intros HI [Hnd Hlt].
  destruct (step_has_shape pyperclip gemini i c)
    as [-> | Hi Hp Hl -> | Hi Hb Hx -> | r Hi Hp ->].
  - auto.
  - unfold acquirers. cbn [trace filter is_acquire snd map fst nthreads].
    fold (acquirers c). split.
    + constructor; [|exact Hnd]. intros Hin.
      apply acquirer_has_event in Hin.
      exact (inv_started c HI i Acquire Hin Hp).
    + intros k [<-|Hk]; [exact Hi | exact (Hlt k Hk)].
  - destruct (op_of_in_block (pcs c i) Hb Hx) as [_ Hacq].
    unfold acquirers. cbn [trace filter nthreads]. unfold is_acquire at 1.
    cbn [snd]. destruct (op_of (pcs c i)); try contradiction; auto.
  - unfold acquirers. cbn [trace filter is_acquire snd nthreads]. auto.
Qed.

Lemma thread_step_calls p w :
  in_block p = true -> (forall r, p <> PExit r) ->
  List.length (requests (snd (thread_step pyperclip gemini p w)))
  + (if before_call (next_pc (fst (thread_step pyperclip gemini p w))) then 1 else 0)
  <= List.length (requests w) + (if before_call p then 1 else 0).
Proof.
  destruct p as [| |text|s|v|v|r|r]; try discriminate; intros _ Hx.
  - simpl. lia.
  - cbn -[strip String.eqb String.append decimal].
    destruct text as [|s|l|a|n|q|b]; try (simpl; lia).
    destruct (String.eqb (strip s) ""); [simpl; lia|].
    unfold bind, get_last_processed.
    destruct (str_eq s (_last_processed w)); simpl; lia.
  - unfold thread_step, bind.
    destruct (send_prompt_world gemini s None None None w) as (_ & _ & Hreq).
    destruct (send_prompt_to_gemini gemini s None None None w) as [[v|e] w2];
      simpl in *; rewrite Hreq; simpl; lia.
  - unfold thread_step. destruct (truthy v); [|simpl; lia].
    unfold bind, copy. destruct (copy_ok pyperclip v); simpl; lia.
  - unfold thread_step, bind, set_last_processed, lift.
    destruct (len v); simpl; lia.
  - exfalso. exact (Hx r eq_refl).
Qed.

(** The requests sent, with the one the holder of the lock may still
    send, are no more than the runs that took the lock. *)
Lemma calls_step i c :
  Inv c ->
  List.length (requests (shared c)) + may_call c
  <= List.length (acquirers c) ->
  List.length (requests (shared (step pyperclip gemini i c))) + may_call (step pyperclip gemini i c)
  <= List.length (acquirers (step pyperclip gemini i c)).
Proof.
  intros HI H.
  destruct (step_has_shape pyperclip gemini i c)
    as [-> | Hi Hp Hl -> | Hi Hb Hx -> | r Hi Hp ->].
  - exact H.
  - unfold may_call, acquirers in *. rewrite Hl in H.
    cbn [shared lock pcs trace filter is_acquire snd map List.length].
    rewrite upd_same. cbn [before_call]. lia.
  - destruct (holder_in_block c i HI Hb) as [Hl _].
    destruct (op_of_in_block (pcs c i) Hb Hx) as [_ Hacq].
    pose proof (thread_step_calls (pcs c i) (shared c) Hb Hx) as Hc.
    unfold may_call, acquirers in *. rewrite Hl in H.
    cbn [shared lock pcs trace filter]. rewrite Hl, upd_same.
    unfold is_acquire at 1. cbn [snd].
    destruct (op_of (pcs c i)); try contradiction; lia.
  - unfold may_call, acquirers in *.
    cbn [shared lock pcs trace filter is_acquire snd]. lia.
Qed.

Lemma counts_exec sched :
  forall c,
    Inv c ->
    NoDup (acquirers c) /\ (forall k, In k (acquirers c) -> k < nthreads c) ->
    List.length (requests (shared c)) + may_call c
    <= List.length (acquirers c) ->
    let c' := exec pyperclip gemini sched c in
    (NoDup (acquirers c')
     /\ (forall k, In k (acquirers c') -> k < nthreads c'))
    /\ List.length (requests (shared c')) + may_call c'
       <= List.length (acquirers c').
Proof.
  induction sched as [|a sched IH]; intros c HI Ha Hc; [split; assumption|].
  change (exec pyperclip gemini (a :: sched) c) with (exec pyperclip gemini sched (act pyperclip gemini a c)).
  destruct a as [|v|i]; cbn [act].
  - apply IH; [apply inv_hotkey, HI | | exact Hc].
    destruct Ha as [Hnd Hlt]. split; [exact Hnd|].
    intros k Hk. simpl. specialize (Hlt k Hk). lia.
  - apply IH; [apply inv_user_copy, HI | exact Ha | exact Hc].
  - apply IH; [apply inv_step, HI | apply acquirers_step; assumption |].
    apply calls_step; assumption.
Qed.

Lemma length_below (l : list nat) n :
  NoDup l -> (forall k, In k l -> k < n) -> List.length l <= n.
Proof.
  intros Hnd Hlt.
  assert (H : List.length l <= List.length (seq 0 n)).
  { apply NoDup_incl_length; [exact Hnd|].
    intros k Hk. apply in_seq. specialize (Hlt k Hk). lia. }
  rewrite length_seq in H. exact H.
Qed.

End Counting.

(** X15: in every execution the requests sent to the service are no more
    than the triggers: a press of the hotkey causes at most one call,
    however the threads are scheduled and whatever lands on the clipboard
    in between. *)
Theorem X15_requests_within_triggers :
  forall pyperclip gemini sched clip,
    List.length (requests (shared (exec pyperclip gemini sched (initial_cstate clip))))
    <= hotkeys sched.
Proof.
  intros pyperclip gemini sched clip.
  destruct (counts_exec pyperclip gemini sched (initial_cstate clip))
    as [[Hnd Hlt] Hc].
  - apply inv_initial.
  - split; [constructor | intros k []].
  - unfold may_call, acquirers. simpl. lia.
  - pose proof (length_below _ _ Hnd Hlt) as Hle.
    rewrite nthreads_exec in Hle. simpl in Hle. lia.
Qed.

(** X16: in every execution no thread takes the lock twice, and every
    thread that took it was started by a trigger: the runs are no more
    than the triggers. *)
Theorem X16_one_run_per_trigger :
  forall pyperclip gemini sched clip,
    let c := exec pyperclip gemini sched (initial_cstate clip) in
    NoDup (acquirers c)
    /\ (forall i, In i (acquirers c) -> i < hotkeys sched)
    /\ acquired c <= hotkeys sched.
Proof.
  intros pyperclip gemini sched clip c.
  destruct (counts_exec pyperclip gemini sched (initial_cstate clip))
    as [[Hnd Hlt] _].
  - apply inv_initial.
  - split; [constructor | intros k []].
  - unfold may_call, acquirers. simpl. lia.
  - fold c in Hnd, Hlt.
    assert (Hn : nthreads c = hotkeys sched)
      by (unfold c; rewrite nthreads_exec; reflexivity).
    rewrite Hn in Hlt. split; [exact Hnd|]. split; [exact Hlt|].
    pose proof (length_below _ _ Hnd Hlt) as Hle.
    unfold acquirers in Hle. rewrite length_map in Hle. exact Hle.
Qed.

Section LastProcessed.

Variable pyperclip : clipboard_lib.
Variable gemini : nat -> request -> result pyval.

Lemma last_ok_same w w' :
  _last_processed w' = _last_processed w -> last_ok w' = last_ok w.
Proof. unfold last_ok. intros ->. reflexivity. Qed.

(** An action inside the block keeps the shape of the last processed
    text, and reaches the assignment only with a reply that is true. *)
Lemma thread_step_last p w :
  last_ok w = true ->
  (forall v, p = PCopied v -> truthy v = true) ->
  last_ok (snd (thread_step pyperclip gemini p w)) = true
  /\ forall v, next_pc (fst (thread_step pyperclip gemini p w)) = PCopied v ->
               truthy v = true.
Proof.
  intros Hok Hcop.
  destruct p as [| |text|s|v|v|r|r].
  - split; [exact Hok | intros v H; discriminate H].
  - split; [exact Hok | intros v H; discriminate H].
  - cbn -[strip String.eqb String.append decimal].
    destruct text as [|s|l|a|n|q|b];
      try (split; [exact Hok | intros v H; discriminate H]).
    destruct (String.eqb (strip s) "");
      [split; [exact Hok | intros v H; discriminate H]|].
    unfold bind, get_last_processed.
    destruct (str_eq s (_last_processed w));
      (split; [exact Hok | intros v H; discriminate H]).
  - unfold thread_step, bind.
    destruct (send_prompt_world gemini s None None None w) as (_ & Hla & _).
    destruct (send_prompt_to_gemini gemini s None None None w) as [[v|e] w2];
      simpl in *;
      (split; [rewrite (last_ok_same w w2 Hla); exact Hok
              | intros v' H; discriminate H]).
  - unfold thread_step. destruct (truthy v) eqn:Ht.
    + unfold bind, copy. destruct (copy_ok pyperclip v).
      * cbn [fst snd ret next_pc]. split; [exact Hok|].
        intros v' H. injection H as <-. exact Ht.
      * split; [exact Hok | intros v' H; discriminate H].
    + split; [exact Hok | intros v' H; discriminate H].
  - pose proof (Hcop v eq_refl) as Hv.
    unfold thread_step, bind, set_last_processed, lift.
    assert (Hl : forall w', _last_processed w' = v -> last_ok w' = true).
    { intros w' Hw'. unfold last_ok. rewrite Hw'.
      destruct v; try exact Hv. reflexivity. }
    destruct (len v); cbn [fst snd next_pc];
      (split; [apply Hl; reflexivity | intros v' H; discriminate H]).
  - split; [exact Hok | intros v H; discriminate H].
  - split; [exact Hok | intros v H; discriminate H].
Qed.

Lemma last_step i c :
  last_ok (shared c) = true ->
  (forall k v, pcs c k = PCopied v -> truthy v = true) ->
  last_ok (shared (step pyperclip gemini i c)) = true
  /\ forall k v, pcs (step pyperclip gemini i c) k = PCopied v ->
                 truthy v = true.
Proof.
  intros Hok Hcop.
  destruct (step_has_shape pyperclip gemini i c)
    as [-> | Hi Hp Hl -> | Hi Hb Hx -> | r Hi Hp ->].
  - auto.
  - cbn [shared pcs]. split; [exact Hok|]. intros k v.
    destruct (Nat.eq_dec k i) as [->|Hk].
    + rewrite upd_same. discriminate.
    + rewrite upd_other by exact Hk. apply Hcop.
  - cbn [shared pcs].
    destruct (thread_step_last (pcs c i) (shared c) Hok (Hcop i)) as [H1 H2].
    split; [exact H1|]. intros k v.
    destruct (Nat.eq_dec k i) as [->|Hk].
    + rewrite upd_same. apply H2.
    + rewrite upd_other by exact Hk. apply Hcop.
  - cbn [shared pcs]. split; [exact Hok|]. intros k v.
    destruct (Nat.eq_dec k i) as [->|Hk].
    + rewrite upd_same. discriminate.
    + rewrite upd_other by exact Hk. apply Hcop.
Qed.

Lemma last_exec sched :
  forall c,
    last_ok (shared c) = true ->
    (forall k v, pcs c k = PCopied v -> truthy v = true) ->
    last_ok (shared (exec pyperclip gemini sched c)) = true.
Proof.
  induction sched as [|a sched IH]; intros c Hok Hcop; [exact Hok|].
  change (exec pyperclip gemini (a :: sched) c) with (exec pyperclip gemini sched (act pyperclip gemini a c)).
  destruct a as [|v|i]; cbn [act].
  - apply IH; assumption.
  - apply IH; assumption.
  - destruct (last_step i c Hok Hcop) as [H1 H2]. apply IH; assumption.
Qed.

End LastProcessed.

(** X17: in every state of every execution, whatever the schedule, the
    service, the installed [pyperclip] and the texts the user copies in
    between, the last processed text is [None] or a value that is true:
    the empty text is never recorded. *)
Theorem X17_last_processed_shape :
  forall pyperclip gemini sched clip,
    last_ok (shared (exec pyperclip gemini sched (initial_cstate clip))) = true.
Proof.
  intros pyperclip gemini sched clip. apply last_exec.
  - reflexivity.
  - intros k v H. discriminate H.
Qed.

(** ** Start-up *)

Lemma find_missing_settled h packages :
  imports_settle h packages = true ->
  find_missing h packages = Ret (missing_of h packages).
Proof.
  induction packages as [|[import_name pip_name] rest IH]; simpl;
    [reflexivity|].
  destruct (import_module h import_name); intros H.
  - apply IH, H.
  - rewrite (IH H). reflexivity.
  - discriminate H.
Qed.

Lemma find_missing_none h packages :
  find_missing h packages = Ret [] <->
  forall import_name pip_name,
    In (import_name, pip_name) packages ->
    import_module h import_name = Imported.
Proof.
  induction packages as [|[i p] rest IH]; simpl.
  - split; [intros _ ? ? [] | reflexivity].
  - destruct (import_module h i) eqn:Hi.
    + rewrite IH. split.
      * intros H i' p' [Heq|Hin]; [injection Heq as <- <-; exact Hi|].
        exact (H i' p' Hin).
      * intros H i' p' Hin. apply (H i' p'). right. exact Hin.
    + split.
      * destruct (find_missing h rest); discriminate.
      * intros H. specialize (H i p (or_introl eq_refl)). congruence.
    + split; [discriminate|].
      intros H. specialize (H i p (or_introl eq_refl)). congruence.
Qed.

Lemma install_all_never_returns h missing :
  fst (install_all h missing) <> Returns.
Proof.
  induction missing as [|package rest IH]; simpl; [discriminate|].
  unfold install_package.
  destruct (check_call_pip h package); simpl; try discriminate.
  destruct (install_all h rest). exact IH.
Qed.

(** The second loop runs pip for the packages in order, up to the first
    one for which pip does not succeed. *)
Lemma install_all_spec h missing :
  (fst (install_all h missing) = Restarts
   /\ pip_runs (snd (install_all h missing)) = missing
   /\ forall p, In p missing -> check_call_pip h p = PipOk)
  \/ exists done p rest,
       missing = done ++ p :: rest
       /\ pip_runs (snd (install_all h missing)) = done ++ [p]
       /\ (forall q, In q done -> check_call_pip h q = PipOk)
       /\ ((check_call_pip h p = CalledProcessError
            /\ fst (install_all h missing) = Exits 1)
           \/ exists e, check_call_pip h p = PipRaises e
                        /\ fst (install_all h missing) = Fails e).
Proof.
  induction missing as [|package rest IH].
  - left. simpl. split; [reflexivity|]. split; [reflexivity|]. intros p [].
  - simpl. unfold install_package.
    destruct (check_call_pip h package) eqn:Hp.
    + destruct (install_all h rest) as [s fx]. simpl in *.
      destruct IH as [(Hs & Hr & Hok) | (done & p & rest' & Hm & Hr & Hok & Hend)].
      * left. split; [exact Hs|]. split; [rewrite Hr; reflexivity|].
        intros p [<-|Hin]; [exact Hp | exact (Hok p Hin)].
      * right. exists (package :: done), p, rest'.
        split; [rewrite Hm; reflexivity|].
        split; [rewrite Hr; reflexivity|].
        split; [|exact Hend].
        intros q [<-|Hin]; [exact Hp | exact (Hok q Hin)].
    + right. exists [], package, rest. simpl.
      split; [reflexivity|]. split; [reflexivity|].
      split; [intros q []|]. left. auto.
    + right. exists [], package, rest. simpl.
      split; [reflexivity|]. split; [reflexivity|].
      split; [intros q []|]. right. exists e. auto.
Qed.

(** X18: start-up returns, and the script goes on to import its packages,
    exactly when every required module can be imported; it has then
    printed nothing and run no pip. *)
Theorem X18_startup_returns :
  forall h packages,
    (fst (check_and_install_packages h packages) = Returns
     <-> forall import_name pip_name,
           In (import_name, pip_name) packages ->
           import_module h import_name = Imported)
    /\ (fst (check_and_install_packages h packages) = Returns ->
        snd (check_and_install_packages h packages) = []).
Proof.
  intros h packages.
  assert (H : fst (check_and_install_packages h packages) = Returns
              <-> find_missing h packages = Ret []).
  { unfold check_and_install_packages.
    destruct (find_missing h packages) as [[|p missing]|e].
    - split; reflexivity.
    - pose proof (install_all_never_returns h (p :: missing)) as Hn.
      destruct (install_all h (p :: missing)) as [s fx]. simpl in *.
      split; [intros Hs; contradiction | discriminate].
    - split; discriminate. }
  split.
  - rewrite H. apply find_missing_none.
  - intros Hr. apply H in Hr. unfold check_and_install_packages.
    rewrite Hr. reflexivity.
Qed.

(** X19: when some required module is missing (and no import fails
    otherwise), start-up runs pip for the missing packages in the order of
    the table and stops at the first one pip does not install: it starts
    the script again when pip installed them all, exits with status 1 when
    pip failed for one, and never runs pip for a package after that
    one. *)
Theorem X19_startup_installs_in_order :
  forall h packages,
    imports_settle h packages = true ->
    missing_of h packages <> [] ->
    let r := check_and_install_packages h packages in
    let missing := missing_of h packages in
    (fst r = Restarts /\ pip_runs (snd r) = missing
     /\ forall p, In p missing -> check_call_pip h p = PipOk)
    \/ exists done p rest,
         missing = done ++ p :: rest
         /\ pip_runs (snd r) = done ++ [p]
         /\ (forall q, In q done -> check_call_pip h q = PipOk)
         /\ ((check_call_pip h p = CalledProcessError /\ fst r = Exits 1)
             \/ exists e, check_call_pip h p = PipRaises e
                          /\ fst r = Fails e).
Proof.
  intros h packages Hset Hne r missing. subst r missing.
  unfold check_and_install_packages.
  rewrite (find_missing_settled h packages Hset).
  destruct (missing_of h packages) as [|p0 m] eqn:Hm; [contradiction|].
  pose proof (install_all_spec h (p0 :: m)) as Hspec.
  destruct (install_all h (p0 :: m)) as [s fx]. exact Hspec.
Qed.

Lemma X19_startup_installs_in_order_witness :
  (fst (check_and_install_packages host_without_genai REQUIRED_PACKAGES)
   = Restarts
   /\ pip_runs (snd (check_and_install_packages host_without_genai
                       REQUIRED_PACKAGES)) = ["google-generativeai"])
  /\ (fst (check_and_install_packages host_pip_broken REQUIRED_PACKAGES)
      = Exits 1
      /\ pip_runs (snd (check_and_install_packages host_pip_broken
                          REQUIRED_PACKAGES))
         = ["keyboard"; "google-generativeai"]).
Proof.
  split.
  - destruct (X19_startup_installs_in_order host_without_genai
                REQUIRED_PACKAGES) as [(H1 & H2 & _) | (d & p & r & _)];
      [reflexivity | discriminate | | split; reflexivity].
    split; [exact H1 | exact H2].
  - destruct (X19_startup_installs_in_order host_pip_broken
                REQUIRED_PACKAGES) as [(H1 & _) | (d & p & r & _)];
      [reflexivity | discriminate | discriminate H1 | split; reflexivity].
Defined.

(** ** [main] *)

(** X20: once the hotkey is registered, [main] ends by [sys.exit(0)] with
    the record that the service stopped logged last, however the wait
    ends: on the stop key, on a keyboard interrupt, or on any other
    exception, which the exit in the [finally] clause replaces.  When the
    registration raises, the exception leaves [main] and the stop is not
    logged. *)
Theorem X20_main_exit :
  forall kb w,
    (forall u, add_hotkey kb "alt+g" = Ret u ->
       fst (main kb w) = MainExits 0
       /\ map message (log (snd (main kb w)))
          = "Clipboard AI service stopped."
              :: "Service running in background. Press Alt+ESC to exit."
              :: "Clipboard AI service started. Hotkey: alt+g"
              :: map message (log w))
    /\ (forall e, add_hotkey kb "alt+g" = Raise e ->
          fst (main kb w) = MainRaises e
          /\ map message (log (snd (main kb w)))
             = "Clipboard AI service started. Hotkey: alt+g"
                 :: map message (log w)).
Proof.
  intros kb w. unfold main. split.
  - intros u Hu. rewrite Hu.
    destruct (wait kb "alt+x") as [v|e]; [split; reflexivity|].
    destruct e; split; reflexivity.
  - intros e He. rewrite He. split; reflexivity.
Qed.

(** ** Triggers while a run is in progress *)

(** X21: no trigger is stuck: in every state of every execution, a
    started thread that waits for the lock takes it at its next action
    when the lock is free; and when the lock is held, the holder is
    another started thread, inside the block, whose next action is
    enabled: it adds its event to the trace. *)
Theorem X21_waiting_thread_can_proceed :
  forall pyperclip gemini sched clip i,
    let c := exec pyperclip gemini sched (initial_cstate clip) in
    i < nthreads c -> pcs c i = PStart ->
    match lock c with
    | None =>
        lock (step pyperclip gemini i c) = Some i
        /\ pcs (step pyperclip gemini i c) i = PLocked
    | Some h =>
        h <> i /\ h < nthreads c /\ in_block (pcs c h) = true
        /\ trace (step pyperclip gemini h c)
           = (h, op_of (pcs c h)) :: trace c
    end.
Proof.
  intros pyperclip gemini sched clip i c Hlt Hp.
  assert (HI : Inv c) by apply inv_exec, inv_initial.
  assert (HB : born c) by apply born_exec, born_initial.
  destruct (lock c) as [h|] eqn:Hl.
  - destruct (inv_held c HI h Hl) as [Hb _].
    assert (Hne : h <> i).
    { intros ->. rewrite Hp in Hb. discriminate. }
    assert (Hh : h < nthreads c).
    { destruct (Nat.lt_ge_cases h (nthreads c)) as [H|H]; [exact H|].
      rewrite (HB h H) in Hb. discriminate. }
    split; [exact Hne|]. split; [exact Hh|]. split; [exact Hb|].
    destruct (exit_or_not (pcs c h)) as [[r Hx]|Hx].
    + rewrite (step_release_eq pyperclip gemini h c r Hh Hx), Hx. reflexivity.
    + rewrite (step_inside_eq pyperclip gemini h c Hh Hb Hx). reflexivity.
  - unfold step. apply Nat.ltb_lt in Hlt. rewrite Hlt, Hp, Hl.
    cbn [negb lock pcs]. rewrite upd_same. auto.
Qed.

Lemma X21_waiting_thread_can_proceed_witness :
  (let c := exec pyperclip_strict svc_bonjour [Hotkey; Hotkey; Run 0]
              (initial_cstate (VStr "hello")) in
   lock c = Some 0 /\ pcs c 1 = PStart
   /\ trace (step pyperclip_strict svc_bonjour 0 c) = (0, ClipRead) :: trace c)
  /\ (let c := exec pyperclip_strict svc_bonjour [Hotkey]
                 (initial_cstate (VStr "hello")) in
      lock c = None
      /\ lock (step pyperclip_strict svc_bonjour 0 c) = Some 0).
Proof.
  split.
  - split; [reflexivity|]. split; [reflexivity|].
    apply (X21_waiting_thread_can_proceed pyperclip_strict svc_bonjour
             [Hotkey; Hotkey; Run 0] (VStr "hello") 1);
      [simpl; lia | reflexivity].
  - split; [reflexivity|].
    apply (X21_waiting_thread_can_proceed pyperclip_strict svc_bonjour
             [Hotkey] (VStr "hello") 0);
      [simpl; lia | reflexivity].
Defined.

(** ** Repeated triggers *)

Section Repeated.

Variable pyperclip : clipboard_lib.
Variable gemini : nat -> request -> result pyval.

Lemma thread_step_requests_grow p w :
  List.length (requests w)
  <= List.length (requests (snd (thread_step pyperclip gemini p w))).
Proof.
  destruct p as [| |text|s|v|v|r|r]; try (simpl; lia).
  - cbn -[strip String.eqb String.append decimal].
    destruct text as [|s|l|a|n|q|b]; try (simpl; lia).
    destruct (String.eqb (strip s) ""); [simpl; lia|].
    unfold bind, get_last_processed.
    destruct (str_eq s (_last_processed w)); simpl; lia.
  - unfold thread_step, bind.
    destruct (send_prompt_world gemini s None None None w) as (_ & _ & Hreq).
    destruct (send_prompt_to_gemini gemini s None None None w) as [[v|e] w2];
      simpl in *; rewrite Hreq; simpl; lia.
  - unfold thread_step. destruct (truthy v); [|simpl; lia].
    unfold bind, copy. destruct (copy_ok pyperclip v); simpl; lia.
  - unfold thread_step, bind, set_last_processed, lift.
    destruct (len v); simpl; lia.
Qed.

Lemma run_to_exit_requests_grow n :
  forall p w,
    List.length (requests w)
    <= List.length (requests (snd (run_to_exit pyperclip gemini n p w))).
Proof.
  induction n as [|n IH]; intros p w.
  - destruct p; simpl; lia.
  - destruct p as [| |text|s|v|v|r|r]; try (simpl; lia);
      cbn [run_to_exit];
      match goal with
      | |- context [thread_step pyperclip gemini ?q w] =>
          pose proof (thread_step_requests_grow q w) as Hg;
          destruct (thread_step pyperclip gemini q w) as [r' w']
      end;
      simpl in Hg; specialize (IH (next_pc r') w'); lia.
Qed.

Lemma settled_requests c :
  List.length (requests (shared c))
  <= List.length (requests (settled pyperclip gemini c)).
Proof.
  unfold settled. destruct (lock c); [|lia].
  apply run_to_exit_requests_grow.
Qed.

(** The request a run sends when it reaches the call. *)
Lemma run_reaching_requests w text :
  reaches_call w text ->
  requests (snd (process_clipboard pyperclip gemini w))
  = default_request text :: requests w.
Proof.
  intros Hreach. rewrite (run_call_cases pyperclip gemini w text Hreach).
  destruct (client_world gemini w text) as (_ & _ & Hreq).
  destruct (client_result (service_outcome gemini w text)) as [v|e];
    [rewrite handle_requests|]; exact Hreq.
Qed.

(** After a first run that got a reply, every further run finds the reply
    on the clipboard and sends nothing. *)
Lemma runs_after_success text resp R n :
  all_space text = false ->
  gemini 0 (default_request text) = Ret resp ->
  extract_text_from_response resp = Ret (VStr R) ->
  R <> "" ->
  let w := runs pyperclip gemini (S n) (initial_world (VStr text)) in
  clipboard w = VStr R /\ _last_processed w = VStr R
  /\ requests w = [default_request text].
Proof.
  intros Hs Ho He HR.
  assert (Hreach : reaches_call (initial_world (VStr text)) text)
    by (repeat split; exact Hs).
  induction n as [|n IH].
  - cbn [runs].
    destruct (run_success pyperclip gemini (initial_world (VStr text)) text resp R
                Hreach Ho He HR) as [Hc Hl].
    split; [exact Hc|]. split; [exact Hl|].
    apply (run_reaching_requests _ text Hreach).
  - destruct IH as (Hc & Hl & Hr). cbn [runs] in *.
    destruct (run_repeat pyperclip gemini _ R Hc Hl) as [r Hrun].
    rewrite Hrun. simpl. auto.
Qed.

(** On a clipboard with nothing to do, no run sends anything. *)
Lemma runs_nothing_to_do clip n :
  nothing_to_do clip = true ->
  let w := runs pyperclip gemini n (initial_world clip) in
  clipboard w = clip /\ requests w = [].
Proof.
  intros Hn. induction n as [|n IH]; [split; reflexivity|].
  destruct IH as [Hc Hr]. cbn [runs].
  rewrite run_nothing_to_do by (rewrite Hc; exact Hn). simpl. auto.
Qed.

End Repeated.

(** X22: repeated triggers send once: when the service answers the first
    request with a text that is not empty, then, however often the hotkey
    is pressed and however the threads are scheduled on a clipboard that
    only the pipeline writes, no more than that one request is ever
    sent. *)
Theorem X22_repeated_triggers_send_once :
  forall pyperclip gemini sched text resp R,
    no_user_copy sched = true ->
    gemini 0 (default_request text) = Ret resp ->
    extract_text_from_response resp = Ret (VStr R) ->
    R <> "" ->
    List.length
      (requests (shared (exec pyperclip gemini sched (initial_cstate (VStr text)))))
    <= 1.
Proof.
  intros pyperclip gemini sched text resp R Hno Ho He HR.
  set (c := exec pyperclip gemini sched (initial_cstate (VStr text))).
  pose proof (settled_requests pyperclip gemini c) as Hle.
  assert (Hser : settled pyperclip gemini c
                 = runs pyperclip gemini (acquired c) (initial_world (VStr text))).
  { apply exec_serial; [apply inv_initial | exact Hno | reflexivity]. }
  rewrite Hser in Hle.
  destruct (all_space text) eqn:Hs.
  - destruct (runs_nothing_to_do pyperclip gemini (VStr text) (acquired c) Hs)
      as [_ Hr].
    rewrite Hr in Hle. simpl in Hle. lia.
  - destruct (acquired c) as [|n].
    + simpl in Hle. lia.
    + destruct (runs_after_success pyperclip gemini text resp R n Hs Ho He HR)
        as (_ & _ & Hr).
      rewrite Hr in Hle. simpl in Hle. lia.
Qed.

Lemma X22_repeated_triggers_send_once_witness :
  List.length
    (requests (shared (exec pyperclip_strict svc_bonjour sched_five
                         (initial_cstate (VStr "Translate to French: hello")))))
  <= 1.
Proof.
  apply (X22_repeated_triggers_send_once pyperclip_strict svc_bonjour sched_five
           "Translate to French: hello"
           (VObj [("text", Ret (VStr "Bonjour"))]) "Bonjour").
  - reflexivity.
  - reflexivity.
  - reflexivity.
  - discriminate.
Defined.

